(** * Windowed inference aggregation: a shallow embedding of
      [modules/python/models/predict_gpu.py] and
      [modules/python/models/dataloader.py].

    Python integers are [Z]; a Python exception is [None] in the [option]
    monad of stdpp.  A tensor is its shape together with its entries.  The
    evidence of a batch is embedded twice.  In [Torch32] and [Predict32]
    the entries are binary32 floats and every addition and division rounds,
    as in the [torch.FloatTensor] of the code: what is said about the values
    of the evidence is said there.  In [Torch] and [Predict] the entries are
    real numbers, the exact arithmetic that the single-precision entries
    approximate; the schedule, the arg-max, the hidden state and the
    workers are treated there.  The wall-clock arithmetic of the progress
    report is done on binary64 floats, which is what a Python [float]
    is. *)

From Stdlib Require Import ZArith List Lia Reals Lra String Ascii Permutation Sorted.
From Stdlib Require Import FunctionalExtensionality.
From Stdlib Require Import DecimalString DecimalPos DecimalZ Floats.
From Stdlib Require QArith.
From stdpp Require Import base option list.

Open Scope Z_scope.

(** ** Python building blocks *)

Module Py.

(** [len(range(start, stop, step))] as CPython computes it. *)
Definition range_length (start stop step : Z) : Z :=
  if 0 <? step then
    if start <? stop then (stop - start - 1) / step + 1 else 0
  else
    if stop <? start then (start - stop - 1) / (- step) + 1 else 0.

(** [range(start, stop, step)]; a zero step raises [ValueError]. *)
Definition range (start stop step : Z) : option (list Z) :=
  if step =? 0 then None
  else Some (map (fun k : nat => start + Z.of_nat k * step)
                 (seq 0 (Z.to_nat (range_length start stop step)))).

(** [list(range(n))]. *)
Definition indices (n : Z) : list Z := map Z.of_nat (seq 0 (Z.to_nat n)).

(** [for i in items: if stop_at i: break; st = body st i], where the body
    may raise. *)
Fixpoint for_break {S : Type} (stop_at : Z -> bool) (body : S -> Z -> option S)
    (items : list Z) (st : S) : option S :=
  match items with
  | [] => Some st
  | i :: rest =>
      if stop_at i then Some st
      else st' ← body st i; for_break stop_at body rest st'
  end.

(** [for x in items: st = body st x]. *)
Fixpoint for_each {S A : Type} (body : S -> A -> option S)
    (items : list A) (st : S) : option S :=
  match items with
  | [] => Some st
  | x :: rest => st' ← body st x; for_each body rest st'
  end.

(** [str(n)] of an integer. *)
Definition str (n : Z) : string := NilZero.string_of_int (Z.to_int n).

(** The bound [i] of a slice [a:b] on an axis of length [n]: a negative
    bound counts from the end, and both are clipped to the axis. *)
Definition slice_bound (n i : Z) : Z :=
  if i <? 0 then Z.max 0 (i + n) else Z.min i n.

End Py.

(** ** dataloader.py *)

Module Dataloader.

(** The three datasets [__getitem__] reads from one HDF5 file.  A file that
    lacks one of them, for which line 27, 28 or 29 raises [KeyError], is not
    among these values. *)
Record hdf5_file := Hdf5 {
  image : list (list R);
  label_base : list Z;
  label_run_length : list Z
}.

(** The [if]/[elif] chain of the loop body, on the element [label_base[i]]. *)
Definition relabel (label_base : list Z) (i : nat) : option (list Z) :=
  c ← label_base !! i;
  if c =? 65 then Some (<[i := 1]> label_base)
  else if c =? 67 then Some (<[i := 2]> label_base)
  else if c =? 71 then Some (<[i := 3]> label_base)
  else if c =? 84 then Some (<[i := 4]> label_base)
  else if c =? 95 then Some (<[i := 0]> label_base)
  else if c =? 78 then Some (<[i := 0]> label_base)
  else Some label_base.

Section SequenceDataset.

(** [h5py.File(path, 'r')]: the files on disk; [None] when opening fails. *)
Variable h5py_File : string -> option hdf5_file.

(** [self.file_info], the paths read from the CSV file. *)
Variable file_info : list string.

(** [SequenceDataset.__getitem__], for an index from 0 up, as a loader
    passes it. *)
Definition getitem (index : nat) : option (list (list R) * list Z * list Z) :=
  path ← file_info !! index;
  hdf5_file ← h5py_File path;
  let image := image hdf5_file in
  let label_base := label_base hdf5_file in
  let label_run_length := label_run_length hdf5_file in
  label_base ← Py.for_each relabel (seq 0 (length label_base)) label_base;
  Some (image, label_base, label_run_length).

(** [SequenceDataset.__len__]. *)
Definition len : nat := length file_info.

End SequenceDataset.

(** The elementwise table the loop implements. *)
Definition remap (c : Z) : Z :=
  if c =? 65 then 1
  else if c =? 67 then 2
  else if c =? 71 then 3
  else if c =? 84 then 4
  else if c =? 95 then 0
  else if c =? 78 then 0
  else c.

End Dataloader.

(** ** The torch operations [predict] uses *)

Module Torch.

(** A three-axis tensor: its sizes and its entries.  Only the entries at
    indices within the sizes are meaningful. *)
Record tensor := Tensor {
  size0 : Z;
  size1 : Z;
  size2 : Z;
  entry : Z -> Z -> Z -> R
}.

Definition shape (t : tensor) : Z * Z * Z := (size0 t, size1 t, size2 t).

(** The tensor of a shape whose entries are all zero. *)
Definition zero_tensor (b n c : Z) : tensor := Tensor b n c (fun _ _ _ => 0%R).

(** [torch.zeros((b, n, c))]; a negative size raises. *)
Definition zeros (b n c : Z) : option tensor :=
  if (b <? 0) || (n <? 0) || (c <? 0) then None
  else Some (zero_tensor b n c).

(** [x[:, start:stop]]. *)
Definition slice1 (x : tensor) (start stop : Z) : tensor :=
  let s := Py.slice_bound (size1 x) start in
  let e := Py.slice_bound (size1 x) stop in
  Tensor (size0 x) (Z.max 0 (e - s)) (size2 x)
         (fun b p c => entry x b (s + p) c).

(** [torch.add(x, y)] for operands of one shape; operands of different
    shapes raise (broadcasting along an axis of size one is left out: the
    operands of [predict] are built to the shape of the evidence tensor). *)
Definition add (x y : tensor) : option tensor :=
  if decide (shape x = shape y) then
    Some (Tensor (size0 x) (size1 x) (size2 x)
                 (fun b p c => (entry x b p c + entry y b p c)%R))
  else None.

Definition sum_list (l : list R) : R := fold_right Rplus 0%R l.

(** The sum of [f] over the class ids [0 .. c-1]. *)
Definition class_sum (c : Z) (f : Z -> R) : R := sum_list (map f (Py.indices c)).

(** [nn.Softmax(dim=2)]. *)
Definition Softmax (x : tensor) : tensor :=
  Tensor (size0 x) (size1 x) (size2 x)
         (fun b p c =>
            (exp (entry x b p c)
             / class_sum (size2 x) (fun k => exp (entry x b p k)))%R).

(** [nn.ZeroPad2d((0, 0, top, bottom))] on a three-axis tensor: [top] rows
    of zeros before and [bottom] rows after, along axis 1.  Negative
    extents, with which torch crops, have no result here: [predict] passes
    none. *)
Definition ZeroPad2d (top bottom : Z) (x : tensor) : option tensor :=
  if (top <? 0) || (bottom <? 0) then None
  else
    Some (Tensor (size0 x) (top + size1 x + bottom) (size2 x)
                 (fun b p c =>
                    if (top <=? p) && (p <? top + size1 x)
                    then entry x b (p - top) c else 0%R)).

(** A two-axis tensor of class ids. *)
Record labels := Labels {
  rows : Z;
  cols : Z;
  label : Z -> Z -> Z
}.

(** The index kept by a left-to-right scan for the maximum: a later class
    replaces the current one only when its score is strictly greater, so
    the first of several maximal entries is the one returned, as
    [torch.max] documents. *)
Definition first_max (f : Z -> R) (ks : list Z) (best : Z) : Z :=
  fold_left (fun best k => if Rlt_dec (f best) (f k) then k else best) ks best.

Definition argmax (c : Z) (f : Z -> R) : Z := first_max f (Py.indices c) 0.

(** [torch.max(x, 2)]: values and indices; an empty class axis raises. *)
Definition max2 (x : tensor) : option ((Z -> Z -> R) * labels) :=
  if size2 x <=? 0 then None
  else
    let idx := fun b p => argmax (size2 x) (entry x b p) in
    Some (fun b p => entry x b p (idx b p),
          Labels (size0 x) (size1 x) idx).

(** [i] is the lowest class id among the [c] classes at which the scores
    [f] are maximal. *)
Definition first_maximal (c : Z) (f : Z -> R) (i : Z) : Prop :=
  0 <= i < c /\
  (forall k, 0 <= k < c -> (f k <= f i)%R) /\
  (forall k, 0 <= k < i -> (f k < f i)%R).

End Torch.

(** ** The progress report of [predict] (lines 163-173) *)

Module Progress.

(** [int(x)] of a Python float: truncation towards zero; infinities and NaN
    raise. *)
Definition py_int (x : float) : option Z :=
  match Prim2SF x with
  | S754_zero _ => Some 0
  | S754_finite s m e =>
      let v := if 0 <=? e then Z.pos m * 2 ^ e else Z.pos m / 2 ^ (- e) in
      Some (if s then - v else v)
  | _ => None
  end.

(** The float a non-negative integer operand is converted to in mixed
    arithmetic (exact below 2^53; batch counts are far below). *)
Definition py_float (n : Z) : float := PrimFloat.of_uint63 (Uint63.of_Z n).

(** The three numbers printed in the time stamp. *)
Record time_left := TimeLeft { hours : Z; mins : Z; secs : Z }.

(** Line 165.  [now] is the value of [time.time()] on that line. *)
Definition estimate (now start_time : float) (total_batches batch_iterator : Z)
  : float :=
  PrimFloat.mul (PrimFloat.sub now start_time)
                (py_float (total_batches - batch_iterator)).

(** Lines 166-169. *)
Definition fields (eta : float) : option time_left :=
  hours ← py_int (PrimFloat.div eta (py_float 3600));
  let eta := PrimFloat.sub eta (PrimFloat.div eta (py_float 3600)) in
  mins ← py_int (PrimFloat.div eta (py_float 60));
  secs ← (e ← py_int eta; Some (e mod 60));
  Some (TimeLeft hours mins secs).

Section Report.

(** [TextColor.GREEN] and [TextColor.END], from a module that is not part of
    the sources at hand. *)
Variables GREEN END : string.

(** Lines 163-173: what one batch writes to [sys.stderr]. *)
Definition report (rank : nat) (now start_time : float)
    (total_batches batch_iterator : Z) : option (list string) :=
  if Nat.eqb rank 0 then
    let eta := estimate now start_time total_batches batch_iterator in
    t ← fields eta;
    let time_stamp :=
      (Py.str (hours t) ++ " HOURS " ++ Py.str (mins t) ++ " MINS "
       ++ Py.str (secs t) ++ " SECS.")%string in
    let batch_string :=
      ("BATCHES DONE: " ++ Py.str batch_iterator ++ "/" ++ Py.str total_batches
       ++ ". ")%string in
    let time_left := ("ESTIMATED TIME LEFT: " ++ time_stamp)%string in
    Some [(GREEN ++ "INFO: " ++ batch_string ++ time_left
           ++ String "010" EmptyString ++ END)%string]
  else Some [].

End Report.

(** The number of whole seconds the printed fields stand for. *)
Definition seconds_of (t : time_left) : Z := hours t * 3600 + mins t * 60 + secs t.

End Progress.

(** ** predict_gpu.py *)

Module Predict.
Import Torch.

(** One minibatch as the loader yields it. *)
Record batch := Batch {
  contig : list string;
  contig_start : list Z;
  contig_end : list Z;
  chunk_id : list Z;
  images : tensor;
  position : list (list Z);
  filename : list string
}.

(** The arguments of one call of [write_prediction]. *)
Record prediction := Prediction {
  pred_contig : string;
  pred_contig_start : Z;
  pred_contig_end : Z;
  pred_chunk_id : Z;
  pred_position : list Z;
  pred_base_labels : list Z;
  pred_rle_labels : list Z;
  pred_filename : string
}.

(** The two running sums of a batch. *)
Record evidence := Evidence {
  prediction_base_tensor : tensor;
  prediction_rle_tensor : tensor
}.

(** The variables the window loop reads and assigns. *)
Record locals := Locals {
  hidden : tensor;
  sums : evidence
}.

(** One invocation of the model: the window offset, the image chunk and the
    hidden state passed in. *)
Record call := Call {
  call_offset : Z;
  call_chunk : tensor;
  call_hidden : tensor
}.

(** The logits of one window, with its start offset. *)
Record window_output := WindowOutput {
  chunk_start : Z;
  output_base : tensor;
  output_rle : tensor
}.

(** What the loop over the loader has done so far. *)
Record worker := Worker {
  batch_iterator : Z;
  stderr : list string;
  store : list prediction
}.

Section Predict.

(** [ImageSizeOptions] and [TrainOptions], from [modules/python/Options.py],
    which is not part of the sources at hand. *)
Variables SEQ_LENGTH TOTAL_BASE_LABELS TOTAL_RLE_LABELS : Z.
Variables TRAIN_WINDOW WINDOW_JUMP GRU_LAYERS HIDDEN_SIZE : Z.

(** The loaded model in evaluation mode: a forward pass maps an image chunk
    and a hidden state to base logits, run-length logits and the next
    hidden state. *)
Variable transducer_model : tensor -> tensor -> tensor * tensor * tensor.

(** The guard [if i + TRAIN_WINDOW > SEQ_LENGTH: break]. *)
Definition past_end (i : Z) : bool := i + TRAIN_WINDOW >? SEQ_LENGTH.

(** Lines 114-117: the sliding-window loop around a body. *)
Definition window_loop {S : Type} (body : S -> Z -> option S) (st : S)
  : option S :=
  items ← Py.range 0 SEQ_LENGTH WINDOW_JUMP;
  Py.for_break past_end body items st.

(** The loop with a body that only records the offset it is run at: the
    start offsets of the windows that are evaluated, in order. *)
Definition windows : option (list Z) :=
  window_loop (fun acc i => Some (acc ++ [i])) [].

(** Lines 137-140: softmax over the class axis, then zero padding. *)
Definition inference_layers (top_zeros bottom_zeros : Z) (x : tensor)
  : option tensor :=
  ZeroPad2d top_zeros bottom_zeros (Softmax x).

(** Lines 131-149: the logits of one window are added to the sums. *)
Definition fuse (ev : evidence) (w : window_output) : option evidence :=
  let chunk_end := chunk_start w + TRAIN_WINDOW in
  let top_zeros := chunk_start w in
  let bottom_zeros := SEQ_LENGTH - chunk_end in
  base_prediction ← inference_layers top_zeros bottom_zeros (output_base w);
  rle_prediction ← inference_layers top_zeros bottom_zeros (output_rle w);
  b ← add (prediction_base_tensor ev) base_prediction;
  r ← add (prediction_rle_tensor ev) rle_prediction;
  Some (Evidence b r).

(** Fusing a list of windows one after another. *)
Definition fuse_all (ws : list window_output) (ev : evidence) : option evidence :=
  Py.for_each fuse ws ev.

(** Lines 118-129: the chunk of window [i] and the model's answer. *)
Definition image_chunk (imgs : tensor) (i : Z) : tensor :=
  slice1 imgs i (i + TRAIN_WINDOW).

Definition infer (imgs : tensor) (h : tensor) (i : Z) : window_output * tensor :=
  let '(output_base, output_rle, h') := transducer_model (image_chunk imgs i) h in
  (WindowOutput i output_base output_rle, h').

(** Lines 118-149: the body of the window loop. *)
Definition window_step (imgs : tensor) (st : locals) (i : Z) : option locals :=
  let '(w, h') := infer imgs (hidden st) i in
  ev ← fuse (sums st) w;
  Some (Locals h' ev).

(** The body of the window loop that also notes each model invocation. *)
Definition window_step_logged (imgs : tensor) (sl : locals * list call) (i : Z)
  : option (locals * list call) :=
  st' ← window_step imgs sl.1 i;
  Some (st', sl.2 ++ [Call i (image_chunk imgs i) (hidden sl.1)]).

(** Lines 99-110: the variables at the start of a batch. *)
Definition batch_start (imgs : tensor) : option locals :=
  h ← zeros (size0 imgs) (2 * GRU_LAYERS) HIDDEN_SIZE;
  b ← zeros (size0 imgs) (size1 imgs) TOTAL_BASE_LABELS;
  r ← zeros (size0 imgs) (size1 imgs) TOTAL_RLE_LABELS;
  Some (Locals h (Evidence b r)).

(** Lines 99-149: the evidence of one batch. *)
Definition accumulate (imgs : tensor) : option locals :=
  st ← batch_start imgs;
  window_loop (window_step imgs) st.

(** The same, with the model invocations noted. *)
Definition accumulate_logged (imgs : tensor) : option (locals * list call) :=
  st ← batch_start imgs;
  window_loop (window_step_logged imgs) (st, []).

(** Lines 155-159: the labels of both heads. *)
Definition resolve (ev : evidence) : option (labels * labels) :=
  '(base_values, base_labels) ← max2 (prediction_base_tensor ev);
  '(rle_values, rle_labels) ← max2 (prediction_rle_tensor ev);
  Some (base_labels, rle_labels).

(** Lines 99-159 for one batch of images. *)
Definition predict_labels (imgs : tensor) : option (labels * labels) :=
  st ← accumulate imgs;
  resolve (sums st).

(** Row [i] of a label tensor. *)
Definition label_row (l : labels) (i : Z) : list Z :=
  map (label l i) (Py.indices (cols l)).

(** Lines 176-179: the calls of [write_prediction] for one batch. *)
Definition write_predictions (b : batch) (base_labels rle_labels : labels)
  : option (list prediction) :=
  mapM (fun i : nat =>
          c ← contig b !! i;
          cs ← contig_start b !! i;
          ce ← contig_end b !! i;
          ci ← chunk_id b !! i;
          pos ← position b !! i;
          f ← filename b !! i;
          Some (Prediction c cs ce ci pos
                           (label_row base_labels (Z.of_nat i))
                           (label_row rle_labels (Z.of_nat i)) f))
       (seq 0 (Z.to_nat (size0 (images b)))).

(** The predictions one batch contributes to the output file. *)
Definition batch_predictions (b : batch) : option (list prediction) :=
  '(base_labels, rle_labels) ← predict_labels (images b);
  write_predictions b base_labels rle_labels.

(** [TextColor], [torch.get_num_threads()] and the dataset and loader of
    [dataloader_predict], none of which is part of the sources at hand.  A
    loader yields its batches; with each comes the pair of clock readings
    [(start_time, now)] that [time.time()] returns in that iteration. *)
Variables GREEN PURPLE END : string.
Variable num_threads : Z.
Variable F : Type.
Variable DataLoader : F -> list (batch * (float * float)).

(** Lines 94-179: the body of the loop over the loader. *)
Definition batch_body (rank : nat) (total_batches : Z) (w : worker)
    (item : batch * (float * float)) : option worker :=
  let '(b, (start_time, now)) := item in
  '(base_labels, rle_labels) ← predict_labels (images b);
  let batch_iterator := batch_iterator w + 1 in
  lines ← Progress.report GREEN END rank now start_time total_batches
                          batch_iterator;
  preds ← write_predictions b base_labels rle_labels;
  Some (Worker batch_iterator (stderr w ++ lines) (store w ++ preds)).

(** The output file of the worker of a rank (line 55). *)
Definition output_path (output_filename : string) (rank : nat) : string :=
  (output_filename ++ "_" ++ Py.str (Z.of_nat rank) ++ ".hdf")%string.

(** Lines 73-78: what the worker writes to [sys.stderr] before its first
    batch. *)
Definition banner (rank : nat) : list string :=
  if Nat.eqb rank 0 then
    [(GREEN ++ "INFO: TORCH THREADS SET TO: " ++ Py.str num_threads ++ "."
      ++ String "010" EmptyString ++ END)%string;
     (PURPLE ++ "Loading data" ++ String "010" EmptyString ++ END)%string]
  else [].

(** What one call of [predict] did: the file it opened for writing, the
    shard it read, the device it ran on and, unless an exception ended it,
    the state after the last batch. *)
Record run := Run {
  store_path : string;
  dataset : F;
  device : Z;
  outcome : option worker
}.

(** [predict]. *)
Definition predict (test_file : F) (output_filename : string) (rank : nat)
    (device_id : Z) : run :=
  let test_loader := DataLoader test_file in
  let total_batches := Z.of_nat (length test_loader) in
  Run (output_path output_filename rank) test_file device_id
      (Py.for_each (batch_body rank total_batches) test_loader
                   (Worker 0 (banner rank) [])).

(** [setup]: the worker of one rank.  Both list entries are looked up
    before [predict] is called, and an exception that ends [predict] leaves
    [setup] as well: line 204 is not reached. *)
Definition setup (rank : nat) (total_callers : nat) (output_filepath : string)
    (all_input_files : list F) (all_devices : list Z) : option run :=
  test_file ← all_input_files !! rank;
  device_id ← all_devices !! rank;
  let r := predict test_file output_filepath rank device_id in
  _ ← outcome r;
  Some r.

(** [predict_gpu]: [mp.spawn] starts [setup] once for each rank below
    [total_callers] and joins them; the join raises again what a worker
    raised. *)
Definition predict_gpu (file_chunks : list F) (output_filepath : string)
    (total_callers : nat) (devices : list Z) : option (list run) :=
  mapM (fun rank => setup rank total_callers output_filepath file_chunks devices)
       (seq 0 total_callers).

End Predict.

(** *** Notions the properties are stated with *)

(** The offsets [0, J, ..., (n-1)·J]. *)
Definition multiples (J : Z) (n : nat) : list Z :=
  map (fun m : nat => Z.of_nat m * J) (seq 0 n).

(** Position [p] lies in the window [[s, s + W)]. *)
Definition covers (W p s : Z) : bool := (s <=? p) && (p <? s + W).

(** What the window at offset [s] with logits [x] contributes to the
    evidence at position [p]: its normalised scores where it covers [p]. *)
Definition contribution (W : Z) (x : tensor) (s : Z) (b p c : Z) : R :=
  if covers W p s then entry (Softmax x) b (p - s) c else 0%R.

(** A window within a sequence of length [L], with logits for [B]
    instances, [W] positions and [Cb] and [Cr] classes. *)
Definition well_shaped (L W B Cb Cr : Z) (w : window_output) : Prop :=
  0 <= chunk_start w /\ chunk_start w + W <= L /\
  shape (output_base w) = (B, W, Cb) /\ shape (output_rle w) = (B, W, Cr).

Section Trace.

Variable TRAIN_WINDOW : Z.
Variable transducer_model : tensor -> tensor -> tensor * tensor * tensor.
Variable imgs : tensor.

(** The logits the model gives along a list of offsets, each invocation
    receiving the hidden state the previous one returned. *)
Fixpoint infer_all (h : tensor) (ws : list Z) : list window_output :=
  match ws with
  | [] => []
  | i :: rest =>
      let '(w, h') := infer TRAIN_WINDOW transducer_model imgs h i in
      w :: infer_all h' rest
  end.

(** The model invocations along a list of offsets. *)
Fixpoint calls (h : tensor) (ws : list Z) : list call :=
  match ws with
  | [] => []
  | i :: rest =>
      let '(w, h') := infer TRAIN_WINDOW transducer_model imgs h i in
      Call i (image_chunk TRAIN_WINDOW imgs i) h :: calls h' rest
  end.

(** The hidden state after the last of them. *)
Fixpoint last_hidden (h : tensor) (ws : list Z) : tensor :=
  match ws with
  | [] => h
  | i :: rest =>
      let '(w, h') := infer TRAIN_WINDOW transducer_model imgs h i in
      last_hidden h' rest
  end.

End Trace.

End Predict.

(** ** Small instances *)

Module Example.
Import Torch Predict.

(** A model that scores class [c] with [c] in the base head and every class
    with 0 in the run-length head, for 2 and 3 classes, and returns the
    hidden state it is given. *)
Definition model (x h : tensor) : tensor * tensor * tensor :=
  (Tensor (size0 x) (size1 x) 2 (fun _ _ c => IZR c),
   Tensor (size0 x) (size1 x) 3 (fun _ _ _ => 0%R),
   h).

(** One image of 6 positions, and one of 7, with one feature. *)
Definition image6 : tensor := zero_tensor 1 6 1.
Definition image7 : tensor := zero_tensor 1 7 1.

(** Evidence of one position whose base scores are 1, 3, 3, 2: classes 1
    and 2 tie for the maximum. *)
Definition tied : evidence :=
  Evidence
    (Tensor 1 1 4 (fun _ _ c =>
       if c =? 0 then 1%R else if c =? 1 then 3%R
       else if c =? 2 then 3%R else 2%R))
    (Tensor 1 1 2 (fun _ _ c => IZR c)).

(** A file with the base labels of [ACGT_NX] and run lengths 1 to 7. *)
Definition acgt_file : Dataloader.hdf5_file :=
  Dataloader.Hdf5 [] [65; 67; 71; 84; 95; 78; 88] [1; 2; 3; 4; 5; 6; 7].

End Example.


(** ** Single precision: the evidence as the code computes it *)

Module F32.

(** The binary32 format of the entries of a [torch.FloatTensor]: 24 bits of
    precision, exponents below 128.  The operations round to nearest, ties
    to even. *)
Definition prec : Z := 24.
Definition emax : Z := 128.

Definition zero : spec_float := S754_zero false.
Definition one : spec_float := S754_finite false 8388608 (-23).

(** The integer [n] as a single. *)
Definition of_Z (n : Z) : spec_float := binary_normalize prec emax n 0 false.

Definition add : spec_float -> spec_float -> spec_float := SFadd prec emax.
Definition sub : spec_float -> spec_float -> spec_float := SFsub prec emax.
Definition div : spec_float -> spec_float -> spec_float := SFdiv prec emax.

(** The sign bit is clear: the float is neither negative nor [-0].  A NaN
    carries no sign here. *)
Definition non_negative (x : spec_float) : bool :=
  match x with
  | S754_zero s | S754_infinity s | S754_finite s _ _ => negb s
  | S754_nan => true
  end.

(** The floats of a list added one after another, from the first to the
    last, starting from zero. *)
Definition sum (l : list spec_float) : spec_float := fold_left add l zero.

(** The greater of two floats as a reduction keeps it; a NaN wins. *)
Definition maximum (m x : spec_float) : spec_float :=
  match m, x with
  | S754_nan, _ | _, S754_nan => S754_nan
  | _, _ => if SFltb m x then x else m
  end.

(** The value of a finite float as a fraction (0 for the others). *)
Definition to_Q (x : spec_float) : QArith_base.Q :=
  match x with
  | S754_finite s m e =>
      QArith_base.Qmult (QArith_base.Qmake (if s then Zneg m else Zpos m) 1)
                        (QArith_base.Qpower (QArith_base.Qmake 2 1) e)
  | _ => QArith_base.Qmake 0 1
  end.

(** The sum of the values of a list of floats, without rounding. *)
Definition exact_sum (l : list spec_float) : QArith_base.Q :=
  fold_right QArith_base.Qplus (QArith_base.Qmake 0 1) (map to_Q l).

End F32.

(** *** The torch operations on single-precision tensors *)

Module Torch32.

(** A three-axis [torch.FloatTensor]: its sizes and its entries.  Only the
    entries at indices within the sizes are meaningful. *)
Record tensor := Tensor {
  size0 : Z;
  size1 : Z;
  size2 : Z;
  entry : Z -> Z -> Z -> spec_float
}.

Definition shape (t : tensor) : Z * Z * Z := (size0 t, size1 t, size2 t).

Definition zero_tensor (b n c : Z) : tensor :=
  Tensor b n c (fun _ _ _ => F32.zero).

(** [torch.zeros((b, n, c))]; a negative size raises. *)
Definition zeros (b n c : Z) : option tensor :=
  if (b <? 0) || (n <? 0) || (c <? 0) then None
  else Some (zero_tensor b n c).

(** [x[:, start:stop]]. *)
Definition slice1 (x : tensor) (start stop : Z) : tensor :=
  let s := Py.slice_bound (size1 x) start in
  let e := Py.slice_bound (size1 x) stop in
  Tensor (size0 x) (Z.max 0 (e - s)) (size2 x)
         (fun b p c => entry x b (s + p) c).

(** The size of one axis of [torch.add(x, y)]: the sizes of the operands
    agree, or one of them is 1 and that operand is repeated along the axis;
    any other pair of sizes raises. *)
Definition broadcast (m n : Z) : option Z :=
  if m =? n then Some m
  else if m =? 1 then Some n
  else if n =? 1 then Some m
  else None.

(** Where an operand whose axis has [size] entries is read for the index
    [i] of the result. *)
Definition operand_index (size i : Z) : Z := if size =? 1 then 0 else i.

(** [torch.add(x, y)]: the entries are added in single precision. *)
Definition add (x y : tensor) : option tensor :=
  n0 ← broadcast (size0 x) (size0 y);
  n1 ← broadcast (size1 x) (size1 y);
  n2 ← broadcast (size2 x) (size2 y);
  Some (Tensor n0 n1 n2
          (fun b p c =>
             F32.add (entry x (operand_index (size0 x) b)
                              (operand_index (size1 x) p)
                              (operand_index (size2 x) c))
                     (entry y (operand_index (size0 y) b)
                              (operand_index (size1 y) p)
                              (operand_index (size2 y) c)))).

Section Softmax.

(** The single-precision exponential of the device.  Torch does not fix
    its rounding, so it is a parameter. *)
Variable expf : spec_float -> spec_float.

(** The greatest of the logits [f 0 .. f (c-1)]. *)
Definition class_max (c : Z) (f : Z -> spec_float) : spec_float :=
  fold_left (fun m k => F32.maximum m (f k)) (Py.indices c) (f 0).

(** [nn.Softmax(dim=2)] as torch evaluates it: the greatest logit of the
    position is subtracted from every logit, the exponentials are summed,
    and every exponential is divided by the sum.  The sum is taken from
    class 0 upwards. *)
Definition Softmax (x : tensor) : tensor :=
  Tensor (size0 x) (size1 x) (size2 x)
         (fun b p c =>
            let m := class_max (size2 x) (entry x b p) in
            let e := fun k => expf (F32.sub (entry x b p k) m) in
            F32.div (e c) (F32.sum (map e (Py.indices (size2 x))))).

End Softmax.

(** [nn.ZeroPad2d((0, 0, top, bottom))] on a three-axis tensor: [top] rows
    of zeros before and [bottom] rows after, along axis 1.  Negative
    extents, with which torch crops, have no result here: [predict] passes
    none. *)
Definition ZeroPad2d (top bottom : Z) (x : tensor) : option tensor :=
  if (top <? 0) || (bottom <? 0) then None
  else
    Some (Tensor (size0 x) (top + size1 x + bottom) (size2 x)
                 (fun b p c =>
                    if (top <=? p) && (p <? top + size1 x)
                    then entry x b (p - top) c else F32.zero)).

End Torch32.

(** *** Lines 99-149 of [predict] on single-precision tensors *)

Module Predict32.
Import Torch32.

(** The two running sums of a batch. *)
Record evidence := Evidence {
  prediction_base_tensor : tensor;
  prediction_rle_tensor : tensor
}.

(** The variables the window loop reads and assigns. *)
Record locals := Locals {
  hidden : tensor;
  sums : evidence
}.

(** The logits of one window, with its start offset. *)
Record window_output := WindowOutput {
  chunk_start : Z;
  output_base : tensor;
  output_rle : tensor
}.

Section Predict.

Variables SEQ_LENGTH TOTAL_BASE_LABELS TOTAL_RLE_LABELS : Z.
Variables TRAIN_WINDOW WINDOW_JUMP GRU_LAYERS HIDDEN_SIZE : Z.
Variable expf : spec_float -> spec_float.
Variable transducer_model : tensor -> tensor -> tensor * tensor * tensor.

(** Lines 137-140: softmax over the class axis, then zero padding. *)
Definition inference_layers (top_zeros bottom_zeros : Z) (x : tensor)
  : option tensor :=
  ZeroPad2d top_zeros bottom_zeros (Softmax expf x).

(** Lines 131-149: the logits of one window are added to the sums. *)
Definition fuse (ev : evidence) (w : window_output) : option evidence :=
  let chunk_end := chunk_start w + TRAIN_WINDOW in
  let top_zeros := chunk_start w in
  let bottom_zeros := SEQ_LENGTH - chunk_end in
  base_prediction ← inference_layers top_zeros bottom_zeros (output_base w);
  rle_prediction ← inference_layers top_zeros bottom_zeros (output_rle w);
  b ← add (prediction_base_tensor ev) base_prediction;
  r ← add (prediction_rle_tensor ev) rle_prediction;
  Some (Evidence b r).

(** Fusing a list of windows one after another. *)
Definition fuse_all (ws : list window_output) (ev : evidence) : option evidence :=
  Py.for_each fuse ws ev.

(** Lines 118-129: the chunk of window [i] and the model's answer. *)
Definition image_chunk (imgs : tensor) (i : Z) : tensor :=
  slice1 imgs i (i + TRAIN_WINDOW).

Definition infer (imgs : tensor) (h : tensor) (i : Z) : window_output * tensor :=
  let '(output_base, output_rle, h') := transducer_model (image_chunk imgs i) h in
  (WindowOutput i output_base output_rle, h').

(** Lines 118-149: the body of the window loop. *)
Definition window_step (imgs : tensor) (st : locals) (i : Z) : option locals :=
  let '(w, h') := infer imgs (hidden st) i in
  ev ← fuse (sums st) w;
  Some (Locals h' ev).

(** Lines 99-110: the variables at the start of a batch. *)
Definition batch_start (imgs : tensor) : option locals :=
  h ← zeros (size0 imgs) (2 * GRU_LAYERS) HIDDEN_SIZE;
  b ← zeros (size0 imgs) (size1 imgs) TOTAL_BASE_LABELS;
  r ← zeros (size0 imgs) (size1 imgs) TOTAL_RLE_LABELS;
  Some (Locals h (Evidence b r)).

(** Lines 99-149: the evidence of one batch. *)
Definition accumulate (imgs : tensor) : option locals :=
  st ← batch_start imgs;
  Predict.window_loop SEQ_LENGTH TRAIN_WINDOW WINDOW_JUMP (window_step imgs) st.

End Predict.

(** *** Notions the properties are stated with *)

(** The score of class [c] among the [n] classes with the logits [x]:
    [exp(x c - m) / (exp(x 0 - m) + ... + exp(x (n-1) - m))] with [m] the
    greatest logit, every operation rounded to single precision. *)
Definition score (expf : spec_float -> spec_float) (n : Z)
    (x : Z -> spec_float) (c : Z) : spec_float :=
  let m := fold_left (fun m k => F32.maximum m (x k)) (Py.indices n) (x 0) in
  F32.div (expf (F32.sub (x c) m))
          (fold_left F32.add
                     (map (fun k => expf (F32.sub (x k) m)) (Py.indices n))
                     F32.zero).

(** A window within a sequence of length [L], with logits for [B]
    instances, [W] positions and [Cb] and [Cr] classes. *)
Definition well_shaped (L W B Cb Cr : Z) (w : window_output) : Prop :=
  0 <= chunk_start w /\ chunk_start w + W <= L /\
  shape (output_base w) = (B, W, Cb) /\ shape (output_rle w) = (B, W, Cr).

(** What the window at offset [s] with logits [x] adds to the evidence at
    position [p]: its scores where it covers [p], and zero elsewhere. *)
Definition contribution (expf : spec_float -> spec_float) (W : Z) (x : tensor)
    (s b p c : Z) : spec_float :=
  if Predict.covers W p s then entry (Softmax expf x) b (p - s) c else F32.zero.

(** The windows of a list that cover position [p]. *)
Definition covering (W p : Z) (outs : list window_output) : list window_output :=
  List.filter (fun w => Predict.covers W p (chunk_start w)) outs.

Section Trace.

Variable TRAIN_WINDOW : Z.
Variable transducer_model : tensor -> tensor -> tensor * tensor * tensor.
Variable imgs : tensor.

(** The logits the model gives along a list of offsets, each invocation
    receiving the hidden state the previous one returned. *)
Fixpoint infer_all (h : tensor) (ws : list Z) : list window_output :=
  match ws with
  | [] => []
  | i :: rest =>
      let '(w, h') := infer TRAIN_WINDOW transducer_model imgs h i in
      w :: infer_all h' rest
  end.

End Trace.

End Predict32.

(** *** Small instances in single precision *)

Module Example32.
Import Torch32 Predict32.

(** The exponential where its single-precision value is certain: [exp 0]
    is 1, [exp] of plus infinity is plus infinity, and below -104 it is 0,
    since [exp (-104)] is less than half the least positive single,
    [2^-150].  The instances below apply it to no other argument; there
    this table gives NaN. *)
Definition expf (x : spec_float) : spec_float :=
  match x with
  | S754_zero _ => F32.one
  | S754_nan => S754_nan
  | S754_infinity false => S754_infinity false
  | _ => if SFltb x (F32.of_Z (-104)) then F32.zero else S754_nan
  end.





(** One third rounded to single precision. *)
Definition third : spec_float := S754_finite false 11184811 (-25).


(** An image of 5 positions whose feature is -200 at positions 0 and 1 and
    0 from position 2 on, and one of 6 positions. *)
Definition image5 : tensor :=
  Tensor 1 5 1 (fun _ p _ => if p <? 2 then F32.of_Z (-200) else F32.zero).
Definition image6 : tensor := zero_tensor 1 6 1.

(** A model whose base logits are 0 for class 0 and, for classes 1 and 2,
    the feature at the first position of the chunk; its run-length logits
    are 0 for both classes, and it returns the hidden state it is given. *)
Definition model (x h : tensor) : tensor * tensor * tensor :=
  (Tensor (size0 x) (size1 x) 3
          (fun b _ c => if c =? 0 then F32.zero else entry x b 0 0),
   zero_tensor (size0 x) (size1 x) 2,
   h).

End Example32.
(** ** Further notions and instances *)

Module More.
Import Torch Predict.

(** The number of windows of a schedule that cover position [p]. *)
Definition coverage (W p : Z) (ws : list Z) : nat :=
  length (List.filter (covers W p) ws).

(** What [write_predictions] passes to [write_prediction] for instance
    [i] of a batch: the function it maps over the instance indices. *)
Definition written (b : batch) (base_labels rle_labels : labels) (i : nat)
  : option prediction :=
  c ← contig b !! i;
  cs ← contig_start b !! i;
  ce ← contig_end b !! i;
  ci ← chunk_id b !! i;
  pos ← position b !! i;
  f ← filename b !! i;
  Some (Prediction c cs ce ci pos
                   (label_row base_labels (Z.of_nat i))
                   (label_row rle_labels (Z.of_nat i)) f).

(** The number of instances in the batches of a loader. *)
Definition instances (items : list (batch * (float * float))) : nat :=
  list_sum (map (fun item => Z.to_nat (size0 (images item.1))) items).

(** A float that is neither an infinity nor NaN. *)
Definition is_finite (x : float) : bool :=
  match Prim2SF x with
  | S754_zero _ | S754_finite _ _ _ => true
  | _ => false
  end.

End More.

Module Example2.
Import Torch Predict.

(** A batch of two instances of six positions with their metadata. *)
Definition batch2 : batch :=
  Batch ["chr1"; "chr1"]%string [0; 6] [6; 12] [0; 1] (zero_tensor 2 6 1)
        [[0; 1; 2; 3; 4; 5]; [6; 7; 8; 9; 10; 11]] ["a.h5"; "a.h5"]%string.

(** Labels that are all zero, for two instances of six positions. *)
Definition zero_labels : labels := Labels 2 6 (fun _ _ => 0).

(** A loader that yields [batch2] once for every shard, with clock readings
    one second apart. *)
Definition loader (shard : nat) : list (batch * (float * float)) :=
  [(batch2, (1700000000%float, 1700000001%float))].

End Example2.

(** ** hyperbandInterface.py: the report of [WrapHyperband.run] *)

Module HyperbandInterface.

Section Run.

(** A result of [Hyperband.run], which is not part of the sources at hand,
    its loss, and the comparison [<] of two losses. *)
Variable result : Type.
Variable K : Type.
Variable loss : result -> K.
Variable ltb : K -> K -> bool.

(** [sorted(results, key=lambda r: r['loss'])]: the stable ascending sort,
    here by insertion; an entry goes before the first entry whose loss is
    not smaller than its own. *)
Fixpoint insert (x : result) (l : list result) : list result :=
  match l with
  | [] => [x]
  | y :: l' => if ltb (loss y) (loss x) then y :: insert x l' else x :: y :: l'
  end.

Definition sorted (results : list result) : list result :=
  foldr insert [] results.

(** Lines 117-120: the five results with the least loss, each printed
    after its rank [i + 1]. *)
Definition top5 (results : list result) : list result :=
  take 5 (sorted results).

Definition printed (results : list result) : list (Z * result) :=
  imap (fun i r => (Z.of_nat i + 1, r)) (top5 results).

End Run.

End HyperbandInterface.

(** * Properties *)

(** ** Loops *)

Module PyFacts.

(** A loop that runs its body on every item of [l1] and stops at the head
    of [l2] has recorded exactly [l1]. *)
Lemma for_break_record (stop_at : Z -> bool) (l1 l2 acc : list Z) :
  Forall (fun i => stop_at i = false) l1 ->
  (forall i, head l2 = Some i -> stop_at i = true) ->
  Py.for_break stop_at (fun acc i => Some (acc ++ [i])) (l1 ++ l2) acc
  = Some (acc ++ l1).
Proof.
  intros H1 H2; revert acc; induction H1 as [|i l1 Hi _ IH]; intros acc; simpl.
  - rewrite app_nil_r. destruct l2 as [|j l2]; simpl; [reflexivity|].
    rewrite (H2 j); reflexivity.
  - rewrite Hi; simpl. rewrite IH, <- app_assoc. reflexivity.
Qed.

(** The loop around any body is the plain loop over the recorded items. *)
Lemma for_break_each {S : Type} (stop_at : Z -> bool) (body : S -> Z -> option S)
    (items ws : list Z) (st : S) :
  Py.for_break stop_at (fun acc i => Some (acc ++ [i])) items [] = Some ws ->
  Py.for_break stop_at body items st = Py.for_each body ws st.
Proof.
  assert (G : forall acc ws', 
    Py.for_break stop_at (fun acc i => Some (acc ++ [i])) items acc = Some ws' ->
    exists tl, ws' = acc ++ tl /\
      forall st, Py.for_break stop_at body items st = Py.for_each body tl st).
  { induction items as [|i items IH]; intros acc ws' H; simpl in *.
    - exists []. rewrite app_nil_r. split; [congruence | reflexivity].
    - destruct (stop_at i).
      + exists []. rewrite app_nil_r. split; [congruence | reflexivity].
      + simpl in H. destruct (IH _ _ H) as (tl & -> & Htl).
        exists (i :: tl). rewrite <- app_assoc. split; [reflexivity|].
        intros st0; simpl. destruct (body st0 i); simpl; [apply Htl | reflexivity]. }
  intros H. destruct (G _ _ H) as (tl & -> & Htl). apply Htl.
Qed.

End PyFacts.

(** ** dataloader.py *)

Module DataloaderFacts.
Import Dataloader.

Lemma relabel_at (done rest : list Z) (c : Z) :
  relabel (done ++ c :: rest) (length done) = Some (done ++ remap c :: rest).
Proof.
  unfold relabel, remap.
  rewrite list_lookup_middle by reflexivity; simpl.
  repeat match goal with
         | |- context [if ?a =? ?b then _ else _] =>
             destruct (Z.eqb_spec a b);
             [rewrite insert_app_r_alt, Nat.sub_diag by lia; reflexivity|]
         end.
  reflexivity.
Qed.

Lemma relabel_loop (rest done : list Z) :
  Py.for_each relabel (seq (length done) (length rest)) (done ++ rest)
  = Some (done ++ map remap rest).
Proof.
  revert done; induction rest as [|c rest IH]; intros done; simpl; [reflexivity|].
  rewrite relabel_at; simpl.
  specialize (IH (done ++ [remap c])).
  rewrite length_app, Nat.add_1_r, <- !app_assoc in IH. exact IH.
Qed.

(** C10: an item returned by [__getitem__] is the image of the file at that
    index, its base labels with 65, 67, 71, 84 replaced by 1, 2, 3, 4 and
    both 95 and 78 by 0 and every other code kept, and its run-length
    labels as they are; and every readable file gives such an item. *)
Theorem getitem_remaps_base_labels
    (h5py_File : string -> option hdf5_file) (file_info : list string)
    (index : nat) :
  (forall item, getitem h5py_File file_info index = Some item ->
     exists path f, file_info !! index = Some path /\ h5py_File path = Some f /\
       item = (image f, map remap (label_base f), label_run_length f)) /\
  (forall path f, file_info !! index = Some path -> h5py_File path = Some f ->
     getitem h5py_File file_info index
     = Some (image f, map remap (label_base f), label_run_length f)) /\
  remap 65 = 1 /\ remap 67 = 2 /\ remap 71 = 3 /\ remap 84 = 4 /\
  remap 95 = 0 /\ remap 78 = 0 /\
  (forall c, c <> 65 -> c <> 67 -> c <> 71 -> c <> 84 -> c <> 95 -> c <> 78 ->
     remap c = c).
Proof.
  assert (G : forall path f, file_info !! index = Some path -> h5py_File path = Some f ->
     getitem h5py_File file_info index
     = Some (image f, map remap (label_base f), label_run_length f)).
  { intros path f Hp Hf. unfold getitem. rewrite Hp; simpl. rewrite Hf; simpl.
    pose proof (relabel_loop (label_base f) []) as E; simpl in E.
    rewrite E. reflexivity. }
  split; [|split; [exact G|]].
  - intros item H.
    destruct (file_info !! index) as [path|] eqn:Hp;
      [|unfold getitem in H; rewrite Hp in H; discriminate H].
    destruct (h5py_File path) as [f|] eqn:Hf;
      [|unfold getitem in H; rewrite Hp in H; simpl in H; rewrite Hf in H; discriminate H].
    exists path, f. rewrite (G path f eq_refl Hf) in H. split; [reflexivity|]. split; congruence.
  - repeat (split; [reflexivity|]).
    intros c ? ? ? ? ? ?. unfold remap.
    repeat match goal with
           | |- context [if ?a =? ?b then _ else _] =>
               destruct (Z.eqb_spec a b); [contradiction|]
           end.
    reflexivity.
Qed.

(** A file holding the base labels of [ACGT_NX] and run lengths 1..7. *)
Lemma getitem_remaps_base_labels_witness :
  getitem (fun _ => Some Example.acgt_file) ["a.h5"%string] 0
  = Some ([], [1; 2; 3; 4; 0; 0; 88], [1; 2; 3; 4; 5; 6; 7]).
Proof.
  exact (proj1 (proj2 (getitem_remaps_base_labels
                         (fun _ => Some Example.acgt_file) ["a.h5"%string] 0%nat))
               "a.h5"%string Example.acgt_file eq_refl eq_refl).
Defined.

End DataloaderFacts.

(** ** The window schedule *)

Module ScheduleFacts.
Import Predict.

Section Schedule.

Variables L W J : Z.

Lemma range_multiples :
  0 < J -> 0 < L ->
  Py.range 0 L J = Some (multiples J (Z.to_nat ((L - 1) / J + 1))).
Proof.
  intros HJ HL. unfold Py.range, Py.range_length.
  destruct (Z.eqb_spec J 0) as [->|_]; [lia|].
  destruct (Z.ltb_spec 0 J); [|lia].
  destruct (Z.ltb_spec 0 L); [|lia].
  rewrite Z.sub_0_r. reflexivity.
Qed.

Lemma multiples_sorted_from (a n : nat) :
  0 < J -> StronglySorted Z.lt (map (fun m : nat => Z.of_nat m * J) (seq a n)).
Proof.
  intros HJ. revert a; induction n as [|n IH]; intros a; simpl; constructor.
  - apply IH.
  - apply Forall_forall. intros x Hx.
    apply list_elem_of_In, in_map_iff in Hx. destruct Hx as (m & <- & Hm).
    apply in_seq in Hm. nia.
Qed.

Lemma schedule_facts (k : Z) :
  J <= W -> W <= L -> k * J + W <= L ->
  (forall k', k' * J + W <= L -> k' <= k) ->
  0 < J /\ 0 <= k /\ 0 < L /\ (Z.to_nat k < Z.to_nat ((L - 1) / J + 1))%nat.
Proof.
  intros HJW HWL Hk Hmax.
  assert (0 < J) as HJ.
  { destruct (Z_lt_le_dec 0 J) as [|Hle]; [assumption|].
    specialize (Hmax (k + 1)). nia. }
  assert (0 <= k) as Hk0 by (apply Hmax; lia).
  repeat split; try lia.
  assert (k <= (L - 1) / J) by (apply Z.div_le_lower_bound; nia).
  lia.
Qed.

Lemma windows_multiples (k : Z) :
  J <= W -> W <= L -> k * J + W <= L ->
  (forall k', k' * J + W <= L -> k' <= k) ->
  windows L W J = Some (multiples J (S (Z.to_nat k))).
Proof.
  intros HJW HWL Hk Hmax.
  destruct (schedule_facts k HJW HWL Hk Hmax) as (HJ & Hk0 & HL & HN).
  unfold windows, window_loop. rewrite range_multiples by assumption; simpl.
  set (N := Z.to_nat ((L - 1) / J + 1)) in *.
  replace N with (S (Z.to_nat k) + (N - S (Z.to_nat k)))%nat by lia.
  unfold multiples. rewrite seq_app, map_app.
  apply (PyFacts.for_break_record _ _ _ []).
  - apply Forall_forall. intros x Hx.
    apply list_elem_of_In, in_map_iff in Hx. destruct Hx as (m & <- & Hm).
    apply in_seq in Hm. unfold past_end.
    rewrite Z.gtb_ltb. apply Z.ltb_ge. nia.
  - intros i Hi. destruct (N - S (Z.to_nat k))%nat as [|r]; [discriminate|].
    simpl in Hi. injection Hi as <-. unfold past_end.
    rewrite Z.gtb_ltb. apply Z.ltb_lt.
    destruct (Z_lt_le_dec L (Z.of_nat (S (Z.to_nat k)) * J + W)) as [|Hle];
      [assumption|].
    specialize (Hmax (k + 1)). nia.
Qed.

End Schedule.

(** C1: for [J <= W <= L] and [k] the largest integer with [k·J + W <= L],
    the window loop runs its body at the offsets [0, J, ..., k·J] and at no
    other, in this increasing order; none of these windows ends past [L];
    and for [L = 1000], [W = 100], [J = 50] these are the 19 offsets
    [0, 50, ..., 900]. *)
Theorem windows_are_the_full_ones (L W J k : Z) :
  J <= W -> W <= L -> k * J + W <= L ->
  (forall k', k' * J + W <= L -> k' <= k) ->
  let ws := multiples J (S (Z.to_nat k)) in
  windows L W J = Some ws /\
  (forall (St : Type) (body : St -> Z -> option St) (st : St),
     window_loop L W J body st = Py.for_each body ws st) /\
  (forall s, s ∈ ws <-> exists m, 0 <= m <= k /\ s = m * J) /\
  StronglySorted Z.lt ws /\
  Forall (fun s => s + W <= L) ws /\
  windows 1000 100 50
  = Some [0; 50; 100; 150; 200; 250; 300; 350; 400; 450; 500; 550; 600; 650;
          700; 750; 800; 850; 900] /\
  (forall ws', windows 1000 100 50 = Some ws' -> length ws' = 19%nat).
Proof.
  intros HJW HWL Hk Hmax ws.
  destruct (schedule_facts L W J k HJW HWL Hk Hmax) as (HJ & Hk0 & HL & HN).
  pose proof (windows_multiples L W J k HJW HWL Hk Hmax) as Hws.
  assert (Hin : forall s, s ∈ ws <-> exists m, 0 <= m <= k /\ s = m * J).
  { intros s. unfold ws, multiples. rewrite list_elem_of_In, in_map_iff. split.
    - intros (m & <- & Hm). apply in_seq in Hm. exists (Z.of_nat m). lia.
    - intros (m & Hm & ->). exists (Z.to_nat m). rewrite in_seq. lia. }
  split; [exact Hws|]. split.
  { intros St body st. unfold windows, window_loop in *.
    destruct (Py.range 0 L J) as [items|]; [|discriminate Hws].
    cbn [mbind option_bind] in *.
    apply PyFacts.for_break_each. exact Hws. }
  split; [exact Hin|]. split; [apply multiples_sorted_from; assumption|]. split.
  { apply Forall_forall. intros s Hs. apply Hin in Hs. destruct Hs as (m & Hm & ->). nia. }
  split; [vm_compute; reflexivity|].
  intros ws'. vm_compute. intros [= <-]. reflexivity.
Qed.

(** The schedule of the spec's example: [L = 1000], [W = 100], [J = 50],
    [k = 18]. *)
Lemma windows_are_the_full_ones_witness :
  windows 1000 100 50 = Some (multiples 50 19).
Proof.
  refine (proj1 (windows_are_the_full_ones 1000 100 50 18 _ _ _ _)); lia.
Defined.

(** A zero jump makes [range] raise before any window is evaluated. *)
Lemma windows_zero_jump (L W : Z) : windows L W 0 = None.
Proof. reflexivity. Qed.

End ScheduleFacts.

(** ** Fusing a window into the evidence *)

Module FuseFacts.
Import Torch Predict.

Section Fuse.

Variables L W : Z.

(** The padded, normalised logits of a window that lies within the
    sequence. *)
Lemma inference_layers_ok (s B C : Z) (x : tensor) :
  0 <= s -> s + W <= L -> shape x = (B, W, C) ->
  exists pad,
    inference_layers s (L - (s + W)) x = Some pad /\
    shape pad = (B, L, C) /\
    forall b p c, entry pad b p c = contribution W x s b p c.
Proof.
  intros Hs He Hx. unfold shape in Hx. injection Hx as H0 H1 H2.
  unfold inference_layers, ZeroPad2d.
  destruct (Z.ltb_spec s 0); [lia|].
  destruct (Z.ltb_spec (L - (s + W)) 0); [lia|]. simpl.
  eexists. split; [reflexivity|]. split.
  - unfold shape; simpl. rewrite H0, H1, H2. repeat f_equal. lia.
  - intros b p c. simpl. unfold contribution, covers. rewrite H1. reflexivity.
Qed.

(** One fusion adds, for each head, the contribution of the window. *)
Lemma fuse_ok (B Cb Cr : Z) (ev : evidence) (w : window_output) :
  0 <= chunk_start w -> chunk_start w + W <= L ->
  shape (output_base w) = (B, W, Cb) ->
  shape (output_rle w) = (B, W, Cr) ->
  shape (prediction_base_tensor ev) = (B, L, Cb) ->
  shape (prediction_rle_tensor ev) = (B, L, Cr) ->
  exists ev',
    fuse L W ev w = Some ev' /\
    shape (prediction_base_tensor ev') = (B, L, Cb) /\
    shape (prediction_rle_tensor ev') = (B, L, Cr) /\
    (forall b p c,
       entry (prediction_base_tensor ev') b p c
       = (entry (prediction_base_tensor ev) b p c
          + contribution W (output_base w) (chunk_start w) b p c)%R) /\
    (forall b p c,
       entry (prediction_rle_tensor ev') b p c
       = (entry (prediction_rle_tensor ev) b p c
          + contribution W (output_rle w) (chunk_start w) b p c)%R).
Proof.
  intros Hs He Hob Hor Hb Hr.
  destruct (inference_layers_ok _ B Cb _ Hs He Hob) as (pb & Epb & Spb & Vpb).
  destruct (inference_layers_ok _ B Cr _ Hs He Hor) as (pr & Epr & Spr & Vpr).
  unfold fuse. rewrite Epb, Epr. simpl.
  unfold add. rewrite Hb, Hr, Spb, Spr.
  rewrite !decide_True by reflexivity. simpl.
  eexists. split; [reflexivity|]. simpl.
  unfold shape in *. simpl.
  repeat split; try assumption; intros; rewrite ?Vpb, ?Vpr; reflexivity.
Qed.

End Fuse.

End FuseFacts.

(** ** One batch *)

Module BatchFacts.
Import Torch Predict.

(** The recorded offsets are a prefix of the items, none of them past the
    guard. *)
Lemma for_break_prefix (stop_at : Z -> bool) (items acc ws : list Z) :
  Py.for_break stop_at (fun acc i => Some (acc ++ [i])) items acc = Some ws ->
  exists pre suf, items = pre ++ suf /\ ws = acc ++ pre /\
                  Forall (fun i => stop_at i = false) pre.
Proof.
  revert acc; induction items as [|i items IH]; intros acc H; simpl in H.
  - exists [], []. rewrite (app_nil_r acc).
    split; [reflexivity|]. split; [congruence | constructor].
  - destruct (stop_at i) eqn:Ei.
    + exists [], (i :: items). rewrite (app_nil_r acc).
      split; [reflexivity|]. split; [congruence | constructor].
    + simpl in H. destruct (IH _ H) as (pre & suf & -> & -> & Hpre).
      exists (i :: pre), suf. rewrite <- app_assoc.
      split; [reflexivity|]. split; [reflexivity|]. constructor; assumption.
Qed.

Lemma for_break_total (stop_at : Z -> bool) (items acc : list Z) :
  exists ws, Py.for_break stop_at (fun acc i => Some (acc ++ [i])) items acc = Some ws.
Proof.
  revert acc; induction items as [|i items IH]; intros acc; simpl.
  - eexists; reflexivity.
  - destruct (stop_at i); [eexists; reflexivity | simpl; apply IH].
Qed.

Lemma StronglySorted_app_l {A : Type} (R : A -> A -> Prop) (l1 l2 : list A) :
  StronglySorted R (l1 ++ l2) -> StronglySorted R l1.
Proof.
  induction l1 as [|x l1 IH]; simpl; intros H; [constructor|].
  apply StronglySorted_inv in H. destruct H as [H1 H2]. constructor.
  - apply IH, H1.
  - apply Forall_app in H2. apply H2.
Qed.

(** With a positive jump the loop evaluates some windows, at increasing
    offsets from 0 on, each of them within the sequence. *)
Lemma windows_ok (L W J : Z) :
  0 < J ->
  exists ws, windows L W J = Some ws /\
             Forall (fun s => 0 <= s /\ s + W <= L) ws /\
             StronglySorted Z.lt ws.
Proof.
  intros HJ. unfold windows, window_loop, Py.range.
  destruct (Z.eqb_spec J 0) as [|_]; [lia|]. cbn [mbind option_bind].
  set (items := map _ _).
  destruct (for_break_total (past_end L W) items []) as (ws & Hws).
  exists ws. split; [exact Hws|].
  destruct (for_break_prefix _ _ _ _ Hws) as (pre & suf & Hitems & -> & Hpre).
  simpl. split.
  - apply Forall_forall. intros s Hs. split.
    + assert (s ∈ items) as Hin by (rewrite Hitems; apply elem_of_app; auto).
      apply list_elem_of_In, in_map_iff in Hin. destruct Hin as (m & <- & _). nia.
    + rewrite Forall_forall in Hpre. specialize (Hpre s Hs).
      unfold past_end in Hpre. rewrite Z.gtb_ltb in Hpre.
      apply Z.ltb_ge in Hpre. exact Hpre.
  - apply (StronglySorted_app_l _ pre suf). rewrite <- Hitems. unfold items.
    erewrite map_ext; [apply (ScheduleFacts.multiples_sorted_from J 0 _ HJ)|].
    intros m. simpl. reflexivity.
Qed.

Section Batch.

Variables L Cb Cr W J G H : Z.
Variable model : tensor -> tensor -> tensor * tensor * tensor.
Variable imgs : tensor.
Variables B F : Z.

Hypothesis W_nonneg : 0 <= W.
Hypothesis imgs_shape : shape imgs = (B, L, F).

(** The model answers a chunk with logits of the chunk's batch size and
    length and of the configured numbers of classes. *)
Hypothesis model_shape : forall x h,
  shape (model x h).1.1 = (size0 x, size1 x, Cb) /\
  shape (model x h).1.2 = (size0 x, size1 x, Cr).

Abbreviation infer_all := (infer_all W model imgs).
Abbreviation calls := (calls W model imgs).
Abbreviation last_hidden := (last_hidden W model imgs).
Abbreviation well_shaped := (well_shaped L W B Cb Cr).

Lemma chunk_shape (s : Z) :
  0 <= s -> s + W <= L -> shape (image_chunk W imgs s) = (B, W, F).
Proof.
  intros Hs He. unfold shape in imgs_shape. injection imgs_shape as H0 H1 H2.
  unfold image_chunk, slice1, shape, Py.slice_bound; simpl.
  rewrite H0, H1, H2.
  destruct (Z.ltb_spec s 0); [lia|].
  destruct (Z.ltb_spec (s + W) 0); [lia|].
  repeat f_equal. lia.
Qed.

Lemma infer_all_offsets (ws : list Z) (h : tensor) :
  map chunk_start (infer_all h ws) = ws.
Proof.
  revert h; induction ws as [|i ws IH]; intros h; simpl; [reflexivity|].
  unfold infer. destruct (model _ h) as [[ob or] h']. simpl. f_equal. apply IH.
Qed.

Lemma infer_all_shapes (ws : list Z) (h : tensor) :
  Forall (fun s => 0 <= s /\ s + W <= L) ws ->
  Forall well_shaped (infer_all h ws).
Proof.
  intros Hws; revert h; induction Hws as [|i ws [Hs He] _ IH]; intros h; simpl;
    [constructor|].
  unfold infer.
  pose proof (model_shape (image_chunk W imgs i) h) as [Sb Sr].
  pose proof (chunk_shape i Hs He) as Sc.
  assert (size0 (image_chunk W imgs i) = B /\ size1 (image_chunk W imgs i) = W)
    as [C0 C1] by (unfold shape in Sc; split; congruence).
  rewrite C0, C1 in Sb, Sr.
  destruct (model _ h) as [[ob or] h']. simpl in *. constructor; [|apply IH].
  unfold Predict.well_shaped; simpl. auto.
Qed.

(** The loop body along a list of offsets: the fusion of the logits the
    model gives along them. *)
Lemma window_steps (ws : list Z) (st : locals) :
  Py.for_each (window_step L W model imgs) ws st
  = ev ← fuse_all L W (infer_all (hidden st) ws) (sums st);
    Some (Locals (last_hidden (hidden st) ws) ev).
Proof.
  revert st; induction ws as [|i ws IH]; intros [h ev]; simpl; [reflexivity|].
  unfold window_step, fuse_all; simpl. unfold infer.
  destruct (model _ h) as [[ob or] h']. simpl.
  destruct (fuse L W ev _) as [ev'|]; simpl; [|reflexivity].
  rewrite IH. reflexivity.
Qed.

Lemma window_steps_logged (ws : list Z) (st : locals) (log : list call) :
  Py.for_each (window_step_logged L W model imgs) ws (st, log)
  = st' ← Py.for_each (window_step L W model imgs) ws st;
    Some (st', log ++ calls (hidden st) ws).
Proof.
  revert st log; induction ws as [|i ws IH]; intros st log; simpl.
  - rewrite app_nil_r. reflexivity.
  - assert (window_step_logged L W model imgs (st, log) i
            = st' ← window_step L W model imgs st i;
              Some (st', log ++ [Call i (image_chunk W imgs i) (hidden st)]))
      as -> by reflexivity.
    destruct (window_step L W model imgs st i) as [st'|] eqn:E; simpl;
      [|reflexivity].
    rewrite IH. unfold window_step, infer in E |- *.
    destruct (model _ (hidden st)) as [[ob or] h']. simpl in E.
    destruct (fuse _ _ _ _); [|discriminate]. injection E as <-. simpl.
    rewrite <- app_assoc. reflexivity.
Qed.

(** Fusing well-shaped windows succeeds and adds their contributions. *)
Lemma fuse_all_sum (outs : list window_output) (ev : evidence) :
  Forall well_shaped outs ->
  shape (prediction_base_tensor ev) = (B, L, Cb) ->
  shape (prediction_rle_tensor ev) = (B, L, Cr) ->
  exists ev',
    fuse_all L W outs ev = Some ev' /\
    shape (prediction_base_tensor ev') = (B, L, Cb) /\
    shape (prediction_rle_tensor ev') = (B, L, Cr) /\
    (forall b p c,
       entry (prediction_base_tensor ev') b p c
       = (entry (prediction_base_tensor ev) b p c
          + sum_list (map (fun w => contribution W (output_base w)
                                      (chunk_start w) b p c) outs))%R) /\
    (forall b p c,
       entry (prediction_rle_tensor ev') b p c
       = (entry (prediction_rle_tensor ev) b p c
          + sum_list (map (fun w => contribution W (output_rle w)
                                      (chunk_start w) b p c) outs))%R).
Proof.
  intros Houts; revert ev; induction Houts as [|w outs Hw _ IH]; intros ev Sb Sr.
  - exists ev. simpl. repeat split; try assumption; intros; lra.
  - destruct Hw as (Hs & He & Hob & Hor).
    destruct (FuseFacts.fuse_ok L W B Cb Cr ev w Hs He Hob Hor Sb Sr)
      as (ev1 & E1 & Sb1 & Sr1 & Vb1 & Vr1).
    destruct (IH ev1 Sb1 Sr1) as (ev' & E' & Sb' & Sr' & Vb' & Vr').
    exists ev'. unfold fuse_all in *. simpl. rewrite E1. simpl.
    repeat split; try assumption; intros b p c.
    + rewrite Vb', Vb1. lra.
    + rewrite Vr', Vr1. lra.
Qed.

Hypothesis J_pos : 0 < J.
Hypothesis B_nonneg : 0 <= B.
Hypothesis L_nonneg : 0 <= L.
Hypothesis Cb_nonneg : 0 <= Cb.
Hypothesis Cr_nonneg : 0 <= Cr.
Hypothesis G_nonneg : 0 <= G.
Hypothesis H_nonneg : 0 <= H.

Lemma zeros_ok (b n c : Z) :
  0 <= b -> 0 <= n -> 0 <= c -> zeros b n c = Some (zero_tensor b n c).
Proof.
  intros. unfold zeros.
  destruct (Z.ltb_spec b 0); [lia|].
  destruct (Z.ltb_spec n 0); [lia|].
  destruct (Z.ltb_spec c 0); [lia|]. reflexivity.
Qed.

(** A batch starts from a zero hidden state and zero sums. *)
Lemma batch_start_ok :
  batch_start Cb Cr G H imgs
  = Some (Locals (zero_tensor B (2 * G) H)
                 (Evidence (zero_tensor B L Cb) (zero_tensor B L Cr))).
Proof.
  unfold shape in imgs_shape. injection imgs_shape as H0 H1 H2.
  unfold batch_start. rewrite H0, H1.
  rewrite !zeros_ok by lia. reflexivity.
Qed.

Abbreviation h0 := (zero_tensor B (2 * G) H).

(** The batch runs through: the windows of the schedule are evaluated, the
    invocations are those of the threaded trace, and the sums hold the
    contributions of the windows. *)
Lemma accumulate_ok :
  exists ws st,
    windows L W J = Some ws /\
    Forall (fun s => 0 <= s /\ s + W <= L) ws /\
    StronglySorted Z.lt ws /\
    accumulate L Cb Cr W J G H model imgs = Some st /\
    accumulate_logged L Cb Cr W J G H model imgs = Some (st, calls h0 ws) /\
    hidden st = last_hidden h0 ws /\
    shape (prediction_base_tensor (sums st)) = (B, L, Cb) /\
    shape (prediction_rle_tensor (sums st)) = (B, L, Cr) /\
    (forall b p c,
       entry (prediction_base_tensor (sums st)) b p c
       = sum_list (map (fun w => contribution W (output_base w)
                                   (chunk_start w) b p c) (infer_all h0 ws))) /\
    (forall b p c,
       entry (prediction_rle_tensor (sums st)) b p c
       = sum_list (map (fun w => contribution W (output_rle w)
                                   (chunk_start w) b p c) (infer_all h0 ws))).
Proof.
  destruct (windows_ok L W J J_pos) as (ws & Hws & Hin & Hsorted).
  pose proof (infer_all_shapes ws h0 Hin) as Hshapes.
  destruct (fuse_all_sum (infer_all h0 ws)
              (Evidence (zero_tensor B L Cb) (zero_tensor B L Cr))
              Hshapes eq_refl eq_refl)
    as (ev & Eev & Sb & Sr & Vb & Vr).
  assert (Py.for_each (window_step L W model imgs) ws
            (Locals h0 (Evidence (zero_tensor B L Cb) (zero_tensor B L Cr)))
          = Some (Locals (last_hidden h0 ws) ev)) as Hrun.
  { rewrite window_steps. simpl. rewrite Eev. reflexivity. }
  assert (forall (St : Type) (body : St -> Z -> option St) (st : St),
            window_loop L W J body st = Py.for_each body ws st) as Hloop.
  { intros St body st. unfold windows, window_loop in *.
    destruct (Py.range 0 L J) as [items|]; [|discriminate Hws].
    cbn [mbind option_bind] in *.
    apply PyFacts.for_break_each. exact Hws. }
  exists ws, (Locals (last_hidden h0 ws) ev).
  split; [exact Hws|]. split; [exact Hin|]. split; [exact Hsorted|].
  split; [|split].
  - unfold accumulate. rewrite batch_start_ok. cbn [mbind option_bind].
    rewrite Hloop. exact Hrun.
  - unfold accumulate_logged. rewrite batch_start_ok. cbn [mbind option_bind].
    rewrite Hloop, window_steps_logged, Hrun. reflexivity.
  - simpl. split; [reflexivity|]. split; [exact Sb|]. split; [exact Sr|].
    split; intros b p c; [rewrite Vb | rewrite Vr]; simpl; lra.
Qed.

End Batch.

End BatchFacts.

(** ** Resolving labels *)

Module ResolveFacts.
Import Torch Predict.

Lemma indices_succ (n : nat) :
  Py.indices (Z.of_nat (S n)) = Py.indices (Z.of_nat n) ++ [Z.of_nat n].
Proof.
  unfold Py.indices. rewrite !Nat2Z.id, seq_S, map_app. reflexivity.
Qed.

Lemma first_max_snoc (f : Z -> R) (ks : list Z) (k best : Z) :
  first_max f (ks ++ [k]) best
  = let i := first_max f ks best in if Rlt_dec (f i) (f k) then k else i.
Proof. unfold first_max. rewrite fold_left_app. reflexivity. Qed.

Lemma first_max_scan (f : Z -> R) (n : nat) :
  first_maximal (Z.of_nat (S n)) f (first_max f (Py.indices (Z.of_nat (S n))) 0).
Proof.
  induction n as [|n IH].
  - unfold first_maximal. simpl. change (Z.of_nat 0) with 0.
    destruct (Rlt_dec (f 0) (f 0)) as [Hlt|_]; [lra|].
    split; [lia|]. split.
    + intros k Hk. replace k with 0 by lia. lra.
    + intros k Hk. lia.
  - rewrite indices_succ, first_max_snoc.
    set (i := first_max f (Py.indices (Z.of_nat (S n))) 0) in *.
    destruct IH as (Hi & Hmax & Hfirst). simpl.
    destruct (Rlt_dec (f i) (f (Z.of_nat (S n)))) as [Hlt|Hge].
    + split; [lia|]. split.
      * intros k Hk. destruct (Z.eq_dec k (Z.of_nat (S n))) as [->|Hne]; [lra|].
        specialize (Hmax k ltac:(lia)). lra.
      * intros k Hk. specialize (Hmax k ltac:(lia)). lra.
    + split; [lia|]. split.
      * intros k Hk. destruct (Z.eq_dec k (Z.of_nat (S n))) as [->|Hne]; [lra|].
        apply Hmax. lia.
      * exact Hfirst.
Qed.

(** The scan returns the first of the maximal classes. *)
Lemma argmax_first_maximal (c : Z) (f : Z -> R) :
  0 < c -> first_maximal c f (argmax c f).
Proof.
  intros Hc. unfold argmax.
  replace c with (Z.of_nat (S (Z.to_nat (c - 1)))) by lia.
  apply first_max_scan.
Qed.

(** There is only one such class. *)
Lemma first_maximal_unique (c : Z) (f : Z -> R) (i j : Z) :
  first_maximal c f i -> first_maximal c f j -> i = j.
Proof.
  intros (Hi & Hmi & Hfi) (Hj & Hmj & Hfj).
  destruct (Z.lt_trichotomy i j) as [Hlt|[Heq|Hgt]]; [|assumption|].
  - specialize (Hfj i ltac:(lia)). specialize (Hmi j ltac:(lia)). lra.
  - specialize (Hfi j ltac:(lia)). specialize (Hmj i ltac:(lia)). lra.
Qed.

Lemma first_maximal_ext (c : Z) (f g : Z -> R) (i : Z) :
  (forall k, 0 <= k < c -> f k = g k) -> first_maximal c f i -> first_maximal c g i.
Proof.
  intros Hfg (Hi & Hm & Hf). split; [assumption|]. split.
  - intros k Hk. rewrite <- !Hfg by lia. apply Hm, Hk.
  - intros k Hk. rewrite <- !Hfg by lia. apply Hf, Hk.
Qed.

(** Scores that are all zero resolve to class 0. *)
Lemma argmax_all_zero (c : Z) (f : Z -> R) :
  (forall k, f k = 0%R) -> argmax c f = 0.
Proof.
  intros Hf. unfold argmax, first_max.
  induction (Py.indices c) as [|k ks IH]; simpl; [reflexivity|].
  destruct (Rlt_dec (f 0) (f k)) as [Hlt|_]; [|exact IH].
  rewrite !Hf in Hlt. lra.
Qed.

Lemma max2_ok (x : tensor) :
  0 < size2 x ->
  exists values l, max2 x = Some (values, l) /\
    rows l = size0 x /\ cols l = size1 x /\
    forall b p, label l b p = argmax (size2 x) (entry x b p).
Proof.
  intros Hc. unfold max2. destruct (Z.leb_spec (size2 x) 0); [lia|].
  eexists _, _. split; [reflexivity|]. simpl. auto.
Qed.

Lemma resolve_ok (ev : evidence) :
  0 < size2 (prediction_base_tensor ev) ->
  0 < size2 (prediction_rle_tensor ev) ->
  exists base_labels rle_labels,
    resolve ev = Some (base_labels, rle_labels) /\
    (forall b p, label base_labels b p
                 = argmax (size2 (prediction_base_tensor ev))
                          (entry (prediction_base_tensor ev) b p)) /\
    (forall b p, label rle_labels b p
                 = argmax (size2 (prediction_rle_tensor ev))
                          (entry (prediction_rle_tensor ev) b p)).
Proof.
  intros Hb Hr.
  destruct (max2_ok _ Hb) as (vb & lb & Eb & _ & _ & Vb).
  destruct (max2_ok _ Hr) as (vr & lr & Er & _ & _ & Vr).
  exists lb, lr. unfold resolve. rewrite Eb; simpl. rewrite Er; simpl. auto.
Qed.

(** C5: the label of every position is the arg-max of its class scores, the
    lowest class id among those with the maximal score; and evidence with
    the same shape and the same scores resolves to the same labels. *)
Theorem labels_are_lowest_argmax (ev : evidence) :
  0 < size2 (prediction_base_tensor ev) ->
  0 < size2 (prediction_rle_tensor ev) ->
  exists base_labels rle_labels,
    resolve ev = Some (base_labels, rle_labels) /\
    (forall b p,
       first_maximal (size2 (prediction_base_tensor ev))
                     (entry (prediction_base_tensor ev) b p)
                     (label base_labels b p)) /\
    (forall b p,
       first_maximal (size2 (prediction_rle_tensor ev))
                     (entry (prediction_rle_tensor ev) b p)
                     (label rle_labels b p)) /\
    (forall b p k,
       0 <= k < size2 (prediction_base_tensor ev) ->
       (forall k', 0 <= k' < size2 (prediction_base_tensor ev) ->
          (entry (prediction_base_tensor ev) b p k'
           <= entry (prediction_base_tensor ev) b p k)%R) ->
       label base_labels b p <= k) /\
    (forall b p k,
       0 <= k < size2 (prediction_rle_tensor ev) ->
       (forall k', 0 <= k' < size2 (prediction_rle_tensor ev) ->
          (entry (prediction_rle_tensor ev) b p k'
           <= entry (prediction_rle_tensor ev) b p k)%R) ->
       label rle_labels b p <= k) /\
    (forall ev',
       shape (prediction_base_tensor ev') = shape (prediction_base_tensor ev) ->
       shape (prediction_rle_tensor ev') = shape (prediction_rle_tensor ev) ->
       (forall b p k, 0 <= k < size2 (prediction_base_tensor ev) ->
          entry (prediction_base_tensor ev') b p k
          = entry (prediction_base_tensor ev) b p k) ->
       (forall b p k, 0 <= k < size2 (prediction_rle_tensor ev) ->
          entry (prediction_rle_tensor ev') b p k
          = entry (prediction_rle_tensor ev) b p k) ->
       exists base_labels' rle_labels',
         resolve ev' = Some (base_labels', rle_labels') /\
         forall b p, label base_labels' b p = label base_labels b p /\
                     label rle_labels' b p = label rle_labels b p).
Proof.
  intros Hb Hr.
  destruct (resolve_ok ev Hb Hr) as (lb & lr & E & Vb & Vr).
  exists lb, lr. split; [exact E|].
  assert (Fb : forall b p, first_maximal (size2 (prediction_base_tensor ev))
                 (entry (prediction_base_tensor ev) b p) (label lb b p)).
  { intros b p. rewrite Vb. apply argmax_first_maximal, Hb. }
  assert (Fr : forall b p, first_maximal (size2 (prediction_rle_tensor ev))
                 (entry (prediction_rle_tensor ev) b p) (label lr b p)).
  { intros b p. rewrite Vr. apply argmax_first_maximal, Hr. }
  split; [exact Fb|]. split; [exact Fr|]. split; [|split].
  - intros b p k Hk Hmax. destruct (Fb b p) as (Hi & _ & Hfirst).
    destruct (Z_le_gt_dec (label lb b p) k) as [|Hgt]; [assumption|].
    specialize (Hfirst k ltac:(lia)). specialize (Hmax _ Hi). lra.
  - intros b p k Hk Hmax. destruct (Fr b p) as (Hi & _ & Hfirst).
    destruct (Z_le_gt_dec (label lr b p) k) as [|Hgt]; [assumption|].
    specialize (Hfirst k ltac:(lia)). specialize (Hmax _ Hi). lra.
  - intros ev' Sb Sr Eb Er.
    assert (size2 (prediction_base_tensor ev') = size2 (prediction_base_tensor ev))
      as Cb by (unfold shape in Sb; congruence).
    assert (size2 (prediction_rle_tensor ev') = size2 (prediction_rle_tensor ev))
      as Cr by (unfold shape in Sr; congruence).
    destruct (resolve_ok ev') as (lb' & lr' & E' & Vb' & Vr'); [lia | lia |].
    exists lb', lr'. split; [exact E'|]. intros b p. split.
    + apply (first_maximal_unique (size2 (prediction_base_tensor ev))
               (entry (prediction_base_tensor ev) b p)); [|apply Fb].
      apply (first_maximal_ext _ (entry (prediction_base_tensor ev') b p));
        [intros; apply Eb; assumption|].
      rewrite Vb', Cb. apply argmax_first_maximal, Hb.
    + apply (first_maximal_unique (size2 (prediction_rle_tensor ev))
               (entry (prediction_rle_tensor ev) b p)); [|apply Fr].
      apply (first_maximal_ext _ (entry (prediction_rle_tensor ev') b p));
        [intros; apply Er; assumption|].
      rewrite Vr', Cr. apply argmax_first_maximal, Hr.
Qed.

(** Scores 1, 3, 3, 2 resolve to class 1, the lower of the two tied. *)
Lemma labels_are_lowest_argmax_witness :
  exists base_labels rle_labels,
    resolve Example.tied = Some (base_labels, rle_labels) /\
    label base_labels 0 0 = 1.
Proof.
  destruct (labels_are_lowest_argmax Example.tied) as (lb & lr & E & Fb & _);
    [simpl; lia | simpl; lia |].
  exists lb, lr. split; [exact E|].
  destruct (Fb 0 0) as (Hi & Hmax & Hfirst). simpl in Hi, Hmax, Hfirst.
  assert (label lb 0 0 = 0 \/ label lb 0 0 = 1 \/ label lb 0 0 = 2 \/ label lb 0 0 = 3)
    as [Hl|[Hl|[Hl|Hl]]] by lia; rewrite Hl in *.
  - specialize (Hmax 1 ltac:(lia)). simpl in Hmax. lra.
  - reflexivity.
  - specialize (Hfirst 1 ltac:(lia)). simpl in Hfirst. lra.
  - specialize (Hmax 1 ltac:(lia)). simpl in Hmax. lra.
Defined.

End ResolveFacts.

(** ** The evidence, the labels and the hidden state of a batch *)

Module PredictFacts.
Import Torch Predict.

Section Windows.

Variables L Cb Cr W J G H : Z.
Variable model : tensor -> tensor -> tensor * tensor * tensor.
Variable imgs : tensor.

Abbreviation infer_all := (infer_all W model imgs).
Abbreviation calls := (calls W model imgs).

Lemma calls_offsets (ws : list Z) (h : tensor) :
  map call_offset (calls h ws) = ws.
Proof.
  revert h; induction ws as [|i ws IH]; intros h; simpl; [reflexivity|].
  unfold infer. destruct (model _ h) as [[ob or] h']. simpl. f_equal. apply IH.
Qed.

Lemma calls_head (ws : list Z) (h : tensor) (c : call) :
  head (calls h ws) = Some c ->
  call_hidden c = h /\ call_chunk c = image_chunk W imgs (call_offset c).
Proof.
  destruct ws as [|i ws]; simpl; [discriminate|].
  unfold infer. destruct (model _ h) as [[ob or] h']. simpl.
  intros [= <-]. simpl. auto.
Qed.

(** Each invocation after the first receives the hidden state the one
    before it returned. *)
Lemma calls_threaded (ws : list Z) (h : tensor) (k : nat) (c c' : call) :
  calls h ws !! k = Some c -> calls h ws !! S k = Some c' ->
  call_hidden c' = (model (call_chunk c) (call_hidden c)).2.
Proof.
  revert h k; induction ws as [|i ws IH]; intros h k; simpl; [discriminate|].
  unfold infer. destruct (model (image_chunk W imgs i) h) as [[ob or] h'] eqn:E.
  destruct k as [|k]; simpl.
  - intros [= <-] Hc'. simpl. rewrite E. simpl.
    apply (calls_head ws h' c'). rewrite head_lookup. exact Hc'.
  - apply IH.
Qed.

Lemma sorted_lookup (ws : list Z) (k : nat) (s s' : Z) :
  StronglySorted Z.lt ws -> ws !! k = Some s -> ws !! S k = Some s' -> s < s'.
Proof.
  intros Hs; revert k; induction Hs as [|x ws _ IH Hx]; intros k; [discriminate|].
  destruct k as [|k]; simpl.
  - intros [= <-] Hs'. rewrite Forall_forall in Hx. apply Hx.
    apply list_elem_of_lookup. exists 0%nat. exact Hs'.
  - apply IH.
Qed.

(** Windows that do not cover a position contribute nothing to it. *)
Lemma uncovered_sum (out : window_output -> tensor) (outs : list window_output)
    (b p c : Z) :
  (forall s, s ∈ map chunk_start outs -> covers W p s = false) ->
  sum_list (map (fun w => contribution W (out w) (chunk_start w) b p c) outs) = 0%R.
Proof.
  induction outs as [|w outs IH]; simpl; intros Hun; [reflexivity|].
  unfold contribution at 1. rewrite (Hun (chunk_start w)) by apply list_elem_of_here.
  rewrite IH; [lra|]. intros s Hs. apply Hun. apply list_elem_of_further, Hs.
Qed.

(** C6: a position that no window covers gets class 0 from both heads. *)
Theorem uncovered_positions_get_class_zero (B F : Z) :
  0 < J -> 0 <= W -> shape imgs = (B, L, F) ->
  0 <= B -> 0 <= L -> 0 < Cb -> 0 < Cr -> 0 <= G -> 0 <= H ->
  (forall x h,
     shape (model x h).1.1 = (size0 x, size1 x, Cb) /\
     shape (model x h).1.2 = (size0 x, size1 x, Cr)) ->
  exists ws base_labels rle_labels,
    windows L W J = Some ws /\
    predict_labels L Cb Cr W J G H model imgs = Some (base_labels, rle_labels) /\
    forall b p,
      (forall s, s ∈ ws -> covers W p s = false) ->
      label base_labels b p = 0 /\ label rle_labels b p = 0.
Proof.
  intros HJ HW Himgs HB HL HCb HCr HG HH Hmodel.
  destruct (BatchFacts.accumulate_ok L Cb Cr W J G H model imgs B F
              HW Himgs Hmodel HJ HB HL ltac:(lia) ltac:(lia) HG HH)
    as (ws & st & Hws & _ & _ & Hacc & _ & _ & Sb & Sr & Vb & Vr).
  assert (size2 (prediction_base_tensor (sums st)) = Cb) as Eb
    by (unfold shape in Sb; congruence).
  assert (size2 (prediction_rle_tensor (sums st)) = Cr) as Er
    by (unfold shape in Sr; congruence).
  destruct (ResolveFacts.resolve_ok (sums st)) as (lb & lr & E & Lb & Lr);
    [lia | lia |].
  exists ws, lb, lr. split; [exact Hws|]. split.
  { unfold predict_labels. rewrite Hacc. exact E. }
  intros b p Hun.
  pose proof (BatchFacts.infer_all_offsets W model imgs ws
                (zero_tensor B (2 * G) H)) as Hoff.
  rewrite <- Hoff in Hun.
  rewrite Lb, Lr. split; apply ResolveFacts.argmax_all_zero; intros k.
  - rewrite Vb. apply uncovered_sum, Hun.
  - rewrite Vr. apply uncovered_sum, Hun.
Qed.

End Windows.

Lemma example_model_shape (x h : tensor) :
  shape (Example.model x h).1.1 = (size0 x, size1 x, 2) /\
  shape (Example.model x h).1.2 = (size0 x, size1 x, 3).
Proof. split; reflexivity. Qed.

(** With [L = 7], [W = 4], [J = 2] the windows start at 0 and 2 and position
    6 is covered by none. *)
Lemma uncovered_positions_get_class_zero_witness :
  exists base_labels rle_labels,
    predict_labels 7 2 3 4 2 1 1 Example.model Example.image7
    = Some (base_labels, rle_labels) /\
    label base_labels 0 6 = 0 /\ label rle_labels 0 6 = 0.
Proof.
  destruct (uncovered_positions_get_class_zero 7 2 3 4 2 1 1 Example.model
              Example.image7 1 1)
    as (ws & lb & lr & Hws & E & Hun);
    first [lia | reflexivity | apply example_model_shape | idtac].
  exists lb, lr. split; [exact E|]. apply Hun.
  vm_compute in Hws. injection Hws as <-.
  intros s Hs. apply list_elem_of_In in Hs. simpl in Hs.
  destruct Hs as [<-|[<-|[]]]; reflexivity.
Defined.

End PredictFacts.

(** ** The hidden state *)

Module HiddenFacts.
Import Torch Predict.

Section Hidden.

Variables L Cb Cr W J G H : Z.
Variable model : tensor -> tensor -> tensor * tensor * tensor.

Lemma calls_chunks (imgs : tensor) (ws : list Z) (h : tensor) :
  Forall (fun c => call_chunk c = image_chunk W imgs (call_offset c))
         (calls W model imgs h ws).
Proof.
  revert h; induction ws as [|i ws IH]; intros h; simpl; [constructor|].
  unfold infer. destruct (model _ h) as [[ob or] h']. constructor; [reflexivity|].
  apply IH.
Qed.

(** One batch appends the predictions it gives on its own. *)
Lemma batch_body_appends (GREEN END : string) (rank : nat) (total_batches : Z)
    (b : batch) (t : float * float) (w0 w1 : worker) :
  batch_body L Cb Cr W J G H model GREEN END rank total_batches w0 (b, t) = Some w1 ->
  exists ps,
    batch_predictions L Cb Cr W J G H model b = Some ps /\
    store w1 = store w0 ++ ps /\
    batch_iterator w1 = batch_iterator w0 + 1.
Proof.
  unfold batch_body, batch_predictions. destruct t as [start_time now].
  destruct (predict_labels L Cb Cr W J G H model (images b)) as [[lb lr]|];
    [|discriminate]. simpl.
  destruct (Progress.report _ _ _ _ _ _ _) as [lines|]; [|discriminate]. simpl.
  destruct (write_predictions b lb lr) as [ps|]; [|discriminate]. simpl.
  intros [= <-]. exists ps. auto.
Qed.

Lemma mapM_cons {A X : Type} (f : A -> option X) (x : A) (l : list A) :
  mapM f (x :: l) = y ← f x; k ← mapM f l; Some (y :: k).
Proof. reflexivity. Qed.

(** The loop over the loader appends, for each batch, the predictions that
    this batch gives on its own. *)
Lemma loader_loop (GREEN END : string) (rank : nat) (total_batches : Z)
    (items : list (batch * (float * float))) (w0 w : worker) :
  Py.for_each (batch_body L Cb Cr W J G H model GREEN END rank total_batches)
              items w0 = Some w ->
  exists preds,
    mapM (batch_predictions L Cb Cr W J G H model) (map fst items) = Some preds /\
    store w = store w0 ++ concat preds /\
    batch_iterator w = batch_iterator w0 + Z.of_nat (length items).
Proof.
  revert w0; induction items as [|[b t] items IH]; intros w0.
  - intros [= <-]. exists []. simpl. rewrite app_nil_r. split; [reflexivity|].
    split; [reflexivity | lia].
  - change (Py.for_each ?f ((b, t) :: items) w0)
      with (w1 ← f w0 (b, t); Py.for_each f items w1).
    destruct (batch_body _ _ _ _ _ _ _ _ _ _ _ _ w0 (b, t)) as [w1|] eqn:E1;
      [|discriminate].
    cbn [mbind option_bind]. intros Hrest.
    destruct (batch_body_appends _ _ _ _ _ _ _ _ E1) as (ps & Eps & Hs1 & Hi1).
    destruct (IH _ Hrest) as (preds & E & Hstore & Hit).
    exists (ps :: preds).
    change (map fst ((b, t) :: items)) with (b :: map fst items).
    rewrite mapM_cons, Eps, E. cbn [mbind option_bind concat].
    split; [reflexivity|]. rewrite Hstore, Hit, Hs1, Hi1, <- app_assoc.
    split; [reflexivity|]. cbn [length]. lia.
Qed.

(** C7: in every batch the first invocation of the model receives the
    all-zero hidden state, each later one receives the hidden state that
    the invocation before it returned, the invocations go through the
    windows in increasing offset order, and what the loop over the loader
    writes for a batch is what this batch gives on its own, whatever the
    batches before it were. *)
Theorem hidden_state_is_reset_and_threaded (imgs : tensor) (B F : Z) :
  0 < J -> 0 <= W -> shape imgs = (B, L, F) ->
  0 <= B -> 0 <= L -> 0 <= Cb -> 0 <= Cr -> 0 <= G -> 0 <= H ->
  (forall x h,
     shape (model x h).1.1 = (size0 x, size1 x, Cb) /\
     shape (model x h).1.2 = (size0 x, size1 x, Cr)) ->
  exists ws st,
    windows L W J = Some ws /\
    StronglySorted Z.lt ws /\
    zeros (size0 imgs) (2 * G) H = Some (zero_tensor B (2 * G) H) /\
    accumulate L Cb Cr W J G H model imgs = Some st /\
    let log := calls W model imgs (zero_tensor B (2 * G) H) ws in
    accumulate_logged L Cb Cr W J G H model imgs = Some (st, log) /\
    map call_offset log = ws /\
    (forall c, c ∈ log -> call_chunk c = image_chunk W imgs (call_offset c)) /\
    (forall c, head log = Some c -> call_hidden c = zero_tensor B (2 * G) H) /\
    (forall k c c',
       log !! k = Some c -> log !! S k = Some c' ->
       call_offset c < call_offset c' /\
       call_hidden c' = (model (call_chunk c) (call_hidden c)).2) /\
    (forall GREEN END rank total_batches items w0 w,
       Py.for_each (batch_body L Cb Cr W J G H model GREEN END rank total_batches)
                   items w0 = Some w ->
       exists preds,
         mapM (batch_predictions L Cb Cr W J G H model) (map fst items)
         = Some preds /\
         store w = store w0 ++ concat preds).
Proof.
  intros HJ HW Himgs HB HL HCb HCr HG HH Hmodel.
  destruct (BatchFacts.accumulate_ok L Cb Cr W J G H model imgs B F
              HW Himgs Hmodel HJ HB HL HCb HCr HG HH)
    as (ws & st & Hws & _ & Hsorted & Hacc & Hlog & _).
  exists ws, st. split; [exact Hws|]. split; [exact Hsorted|]. split.
  { assert (size0 imgs = B) as -> by (unfold shape in Himgs; congruence).
    apply BatchFacts.zeros_ok; lia. }
  split; [exact Hacc|]. simpl. split; [exact Hlog|].
  pose proof (PredictFacts.calls_offsets W model imgs ws (zero_tensor B (2 * G) H))
    as Hoff.
  split; [exact Hoff|]. split.
  { intros c Hc. pose proof (calls_chunks imgs ws (zero_tensor B (2 * G) H)) as Hch.
    rewrite Forall_forall in Hch. apply Hch, Hc. }
  split; [intros c Hc; apply (PredictFacts.calls_head W model imgs ws _ c Hc)|].
  split.
  - intros k c c' Hc Hc'. split.
    + apply (PredictFacts.sorted_lookup ws k); [exact Hsorted | |].
      * rewrite <- Hoff, list_lookup_fmap, Hc. reflexivity.
      * rewrite <- Hoff, list_lookup_fmap, Hc'. reflexivity.
    + apply (PredictFacts.calls_threaded W model imgs ws _ k c c' Hc Hc').
  - intros GREEN END rank total_batches items w0 w Hrun.
    destruct (loader_loop GREEN END rank total_batches items w0 w Hrun)
      as (preds & E & Hstore & _).
    exists preds. auto.
Qed.

End Hidden.

(** The invocations of the batch with [L = 6], [W = 4], [J = 2]. *)
Lemma hidden_state_is_reset_and_threaded_witness :
  exists st log,
    accumulate_logged 6 2 3 4 2 1 1 Example.model Example.image6 = Some (st, log) /\
    map call_offset log = [0; 2].
Proof.
  destruct (hidden_state_is_reset_and_threaded 6 2 3 4 2 1 1 Example.model
              Example.image6 1 1)
    as (ws & st & Hws & _ & _ & _ & Hrest);
    first [lia | reflexivity | apply PredictFacts.example_model_shape | idtac].
  cbv zeta in Hrest. destruct Hrest as (Hlog & Hoff & _).
  eexists st, _. split; [exact Hlog|].
  rewrite Hoff. vm_compute in Hws. congruence.
Defined.

End HiddenFacts.

(** ** The workers *)

Module LaunchFacts.
Import Torch Predict.

Lemma append_inv_head (p a b : string) : (p ++ a)%string = (p ++ b)%string -> a = b.
Proof.
  induction p as [|ch p IH]; simpl; intros E; [exact E|].
  injection E as E. apply IH, E.
Qed.

Lemma list_ascii_append (a b : string) :
  list_ascii_of_string (a ++ b) = list_ascii_of_string a ++ list_ascii_of_string b.
Proof. induction a as [|ch a IH]; simpl; [reflexivity | rewrite IH; reflexivity]. Qed.

Lemma append_inv_tail (a b s : string) : (a ++ s)%string = (b ++ s)%string -> a = b.
Proof.
  intros E. apply (f_equal list_ascii_of_string) in E.
  rewrite !list_ascii_append in E. apply app_inv_tail in E.
  rewrite <- (string_of_list_ascii_of_string a), <- (string_of_list_ascii_of_string b), E.
  reflexivity.
Qed.

(** [str] gives different integers different strings. *)
Lemma str_inj (n n' : Z) : Py.str n = Py.str n' -> n = n'.
Proof.
  assert (forall z, NilZero.int_of_string (Py.str z) = Some (Z.to_int z)) as Hparse.
  { intros z. apply NilZero.isi; destruct z; simpl; try discriminate;
      intros [= E]; exact (DecimalPos.Unsigned.to_uint_nonnil _ E). }
  intros E. apply DecimalZ.to_int_inj.
  pose proof (Hparse n) as Hn. rewrite E, Hparse in Hn. congruence.
Qed.

Lemma output_path_inj (output_filename : string) (r r' : nat) :
  output_path output_filename r = output_path output_filename r' -> r = r'.
Proof.
  unfold output_path. intros E.
  apply append_inv_head, (append_inv_head "_") in E.
  apply append_inv_tail, str_inj in E. lia.
Qed.

Section Launch.

Variables L Cb Cr W J G H : Z.
Variable model : tensor -> tensor -> tensor * tensor * tensor.
Variables GREEN PURPLE END : string.
Variable num_threads : Z.
Variable F : Type.
Variable DataLoader : F -> list (batch * (float * float)).

Abbreviation predict :=
  (predict L Cb Cr W J G H model GREEN PURPLE END num_threads F DataLoader).
Abbreviation setup :=
  (setup L Cb Cr W J G H model GREEN PURPLE END num_threads F DataLoader).
Abbreviation predict_gpu :=
  (predict_gpu L Cb Cr W J G H model GREEN PURPLE END num_threads F DataLoader).

Lemma setup_inv (rank total_callers : nat) (output_filepath : string)
    (file_chunks : list F) (devices : list Z) (r : run F) :
  setup rank total_callers output_filepath file_chunks devices = Some r ->
  exists f d w, file_chunks !! rank = Some f /\ devices !! rank = Some d /\
                r = predict f output_filepath rank d /\
                outcome F (predict f output_filepath rank d) = Some w.
Proof.
  unfold Predict.setup.
  destruct (file_chunks !! rank) as [f|]; [|discriminate].
  destruct (devices !! rank) as [d|]; [|discriminate].
  cbn [mbind option_bind].
  destruct (outcome F (Predict.predict _ _ _ _ _ _ _ _ _ _ _ _ _ _ f _ rank d))
    as [w|] eqn:E; [|discriminate].
  cbn [mbind option_bind]. intros [= <-]. exists f, d, w. auto.
Qed.

(** C8: in a launch that returns, the worker of every rank [r] below
    [total_callers] has read the shard [file_chunks[r]] and run on the
    device [devices[r]]; it has gone through all the batches of the loader
    of that shard, and what it has written is, batch after batch, the
    predictions of these batches, into the one file it has opened, named by
    the output prefix, an underscore, the rank and [.hdf].  The files of
    two different ranks have different names. *)
Theorem workers_write_to_their_own_files
    (file_chunks : list F) (output_filepath : string) (total_callers : nat)
    (devices : list Z) (runs : list (run F)) :
  predict_gpu file_chunks output_filepath total_callers devices = Some runs ->
  length runs = total_callers /\
  (forall r, (r < total_callers)%nat ->
     exists f d w preds,
       file_chunks !! r = Some f /\ devices !! r = Some d /\
       runs !! r = Some (predict f output_filepath r d) /\
       dataset F (predict f output_filepath r d) = f /\
       device F (predict f output_filepath r d) = d /\
       store_path F (predict f output_filepath r d)
       = (output_filepath ++ "_" ++ Py.str (Z.of_nat r) ++ ".hdf")%string /\
       outcome F (predict f output_filepath r d) = Some w /\
       mapM (batch_predictions L Cb Cr W J G H model) (map fst (DataLoader f))
       = Some preds /\
       store w = concat preds /\
       batch_iterator w = Z.of_nat (length (DataLoader f))) /\
  (forall r r' run run',
     runs !! r = Some run -> runs !! r' = Some run' -> r <> r' ->
     store_path F run <> store_path F run') /\
  (forall r r', r <> r' ->
     output_path output_filepath r <> output_path output_filepath r').
Proof.
  intros Hruns.
  pose proof (mapM_Some_1 _ _ _ Hruns) as H2.
  assert (length runs = total_callers) as Hlen
    by (rewrite <- (Forall2_length _ _ _ H2), length_seq; reflexivity).
  assert (Hrun : forall r run, runs !! r = Some run ->
            exists f d w, file_chunks !! r = Some f /\ devices !! r = Some d /\
              run = predict f output_filepath r d /\
              outcome F (predict f output_filepath r d) = Some w).
  { intros r run Hr.
    destruct (Forall2_lookup_r _ _ _ _ _ H2 Hr) as (r0 & Hr0 & E).
    apply lookup_seq in Hr0. destruct Hr0 as [-> _]. simpl in E.
    apply (setup_inv _ _ _ _ _ _ E). }
  split; [exact Hlen|]. split; [|split].
  - intros r Hr.
    destruct (lookup_lt_is_Some_2 runs r ltac:(lia)) as [run Erun].
    destruct (Hrun r run Erun) as (f & d & w & Ef & Ed & -> & Ew).
    pose proof Ew as Eloop. unfold Predict.predict in Eloop. cbn [outcome] in Eloop.
    destruct (HiddenFacts.loader_loop _ _ _ _ _ _ _ _ _ _ _ _ _ _ _ Eloop)
      as (preds & Epreds & Hstore & Hit).
    cbn [store batch_iterator app] in Hstore, Hit.
    exists f, d, w, preds.
    repeat (split; [assumption || reflexivity|]). lia.
  - intros r r' run run' Hr Hr' Hne E.
    destruct (Hrun _ _ Hr) as (f & d & w & _ & _ & -> & _).
    destruct (Hrun _ _ Hr') as (f' & d' & w' & _ & _ & -> & _).
    simpl in E. apply output_path_inj in E. contradiction.
  - intros r r' Hne E. apply output_path_inj in E. contradiction.
Qed.

End Launch.

(** Two workers, on shards 10 and 11 and devices 0 and 1: each goes
    through the one batch of its loader. *)
Lemma workers_write_to_their_own_files_witness :
  exists runs,
    Predict.predict_gpu 6 2 3 4 2 1 1 Example.model EmptyString EmptyString
      EmptyString 1 nat Example2.loader [10; 11]%nat "out" 2 [0; 1] = Some runs /\
    length runs = 2%nat.
Proof.
  assert (exists runs,
    Predict.predict_gpu 6 2 3 4 2 1 1 Example.model EmptyString EmptyString
      EmptyString 1 nat Example2.loader [10; 11]%nat "out" 2 [0; 1] = Some runs)
    as [runs E] by (vm_compute; eexists; reflexivity).
  exists runs. split; [exact E|].
  exact (proj1 (workers_write_to_their_own_files 6 2 3 4 2 1 1 Example.model
                  EmptyString EmptyString EmptyString 1 nat Example2.loader
                  [10; 11]%nat "out" 2 [0; 1] runs E)).
Defined.

End LaunchFacts.

(** ** The progress report *)

Module ProgressFacts.
Import Progress.

(** Only rank 0 writes progress lines. *)
Lemma report_only_rank_0 (GREEN END : string) (rank : nat) (now start_time : float)
    (total_batches batch_iterator : Z) :
  rank <> 0%nat ->
  report GREEN END rank now start_time total_batches batch_iterator = Some [].
Proof. intros Hr. unfold report. destruct rank; [contradiction | reflexivity]. Qed.

(** C9 fails on the code: with one second for the last batch and 3600 batches
    left the estimate is 3600 seconds, and the fields printed by rank 0 are
    1 hour, 59 minutes and 59 seconds, which stand for 7199 seconds. *)
Theorem eta_fields_do_not_add_up :
  let eta := estimate 1700000001 1700000000 3601 1 in
  py_int eta = Some 3600 /\
  fields eta = Some (TimeLeft 1 59 59) /\
  seconds_of (TimeLeft 1 59 59) = 7199 /\
  report EmptyString EmptyString 0 1700000001 1700000000 3601 1
  = Some ["INFO: BATCHES DONE: 1/3601. ESTIMATED TIME LEFT: 1 HOURS 59 MINS 59 SECS."
          ++ String "010" EmptyString]%string.
Proof. vm_compute. repeat split; reflexivity. Qed.

End ProgressFacts.


(** ** Single-precision arithmetic *)

Module F32Facts.
Import F32.


Lemma binary_round_aux_sign (m e : Z) (l : location) :
  non_negative (binary_round_aux prec emax false m e l) = true.
Proof.
  unfold binary_round_aux.
  destruct (shr_fexp prec emax m e l) as [mrs' e'].
  destruct (shr_fexp prec emax _ e' loc_Exact) as [mrs'' e''].
  destruct (shr_m mrs''); try reflexivity.
  destruct (_ <=? _); reflexivity.
Qed.

Lemma binary_round_sign (m : positive) (e : Z) :
  non_negative (binary_round prec emax false m e) = true.
Proof.
  unfold binary_round. destruct (shl_align _ _ _). apply binary_round_aux_sign.
Qed.

(** The sum of two floats that are not negative is not negative. *)
Lemma add_non_negative (x y : spec_float) :
  non_negative x = true -> non_negative y = true -> non_negative (add x y) = true.
Proof.
  destruct x as [sx|sx| |sx mx ex], y as [sy|sy| |sy my ey]; simpl;
    try (destruct sx; try discriminate); try (destruct sy; try discriminate);
    try reflexivity; intros _ _.
  unfold add, SFadd. cbn [cond_Zopp]. unfold binary_normalize.
  destruct (shl_align mx ex (Z.min ex ey)) as [a ?],
           (shl_align my ey (Z.min ex ey)) as [b ?].
  cbn [fst Z.add]. apply binary_round_sign.
Qed.

(** So is their quotient. *)
Lemma div_non_negative (x y : spec_float) :
  non_negative x = true -> non_negative y = true -> non_negative (div x y) = true.
Proof.
  destruct x as [sx|sx| |sx mx ex], y as [sy|sy| |sy my ey]; simpl;
    try (destruct sx; try discriminate); try (destruct sy; try discriminate);
    try reflexivity; intros _ _.
  unfold div, SFdiv. destruct (SFdiv_core_binary _ _ _ _ _ _) as [[mz ez] lz].
  cbn [xorb]. apply binary_round_aux_sign.
Qed.

(** Adding zero changes nothing, on either side, unless the other operand
    is [-0]. *)
Lemma add_zero_r (x : spec_float) : non_negative x = true -> add x zero = x.
Proof. destruct x as [[]|[]| |[] m e]; simpl; try discriminate; reflexivity. Qed.


Lemma fold_add_non_negative (l : list spec_float) (acc : spec_float) :
  non_negative acc = true -> Forall (fun x => non_negative x = true) l ->
  non_negative (fold_left add l acc) = true.
Proof.
  intros Ha Hl; revert acc Ha; induction Hl as [|x l Hx _ IH]; intros acc Ha; simpl;
    [exact Ha|].
  apply IH, add_non_negative; assumption.
Qed.

(** A running sum passes over the zeros of a list. *)
Lemma fold_add_skip {A : Type} (keep : A -> bool) (f : A -> spec_float)
    (l : list A) (acc : spec_float) :
  non_negative acc = true -> (forall a, non_negative (f a) = true) ->
  fold_left add (map (fun a => if keep a then f a else zero) l) acc
  = fold_left add (map f (List.filter keep l)) acc.
Proof.
  intros Ha Hf; revert acc Ha; induction l as [|a l IH]; intros acc Ha; simpl;
    [reflexivity|].
  destruct (keep a); simpl.
  - apply IH, add_non_negative; [exact Ha | apply Hf].
  - rewrite add_zero_r by exact Ha. apply IH, Ha.
Qed.



End F32Facts.

(** ** The single-precision tensor operations *)

Module Torch32Facts.
Import Torch32.

Lemma broadcast_same (n : Z) : broadcast n n = Some n.
Proof. unfold broadcast. rewrite Z.eqb_refl. reflexivity. Qed.

Lemma operand_index_within (n i : Z) : 0 <= i < n -> operand_index n i = i.
Proof. unfold operand_index. destruct (Z.eqb_spec n 1); lia. Qed.

(** [torch.add] of two tensors of one shape adds them entry by entry. *)
Lemma add_ok (B N C : Z) (x y : tensor) :
  shape x = (B, N, C) -> shape y = (B, N, C) ->
  exists t,
    add x y = Some t /\ shape t = (B, N, C) /\
    forall b p c, 0 <= b < B -> 0 <= p < N -> 0 <= c < C ->
      entry t b p c = F32.add (entry x b p c) (entry y b p c).
Proof.
  intros Hx Hy. unfold shape in Hx, Hy.
  injection Hx as X0 X1 X2. injection Hy as Y0 Y1 Y2.
  unfold add. rewrite X0, X1, X2, Y0, Y1, Y2, !broadcast_same.
  cbn [mbind option_bind]. eexists. split; [reflexivity|]. split; [reflexivity|].
  intros b p c Hb Hp Hc. cbn [entry].
  rewrite !operand_index_within by assumption. reflexivity.
Qed.

Lemma zeros32_ok (b n c : Z) :
  0 <= b -> 0 <= n -> 0 <= c -> zeros b n c = Some (zero_tensor b n c).
Proof.
  intros. unfold zeros.
  destruct (Z.ltb_spec b 0); [lia|].
  destruct (Z.ltb_spec n 0); [lia|].
  destruct (Z.ltb_spec c 0); [lia|]. reflexivity.
Qed.


Section Softmax.

Variable expf : spec_float -> spec_float.

(** The entries of [Softmax] are the scores of the logits. *)
Lemma Softmax_score (x : tensor) (b p c : Z) :
  entry (Softmax expf x) b p c = Predict32.score expf (size2 x) (entry x b p) c.
Proof. reflexivity. Qed.

Hypothesis expf_non_negative : forall x, F32.non_negative (expf x) = true.

(** No score is negative. *)
Lemma Softmax_non_negative (x : tensor) (b p c : Z) :
  F32.non_negative (entry (Softmax expf x) b p c) = true.
Proof.
  cbn [Softmax entry]. apply F32Facts.div_non_negative; [apply expf_non_negative|].
  apply F32Facts.fold_add_non_negative; [reflexivity|].
  apply Forall_forall. intros y Hy.
  apply list_elem_of_In, in_map_iff in Hy. destruct Hy as (k & <- & _).
  apply expf_non_negative.
Qed.

End Softmax.

(** The exponential of the instances is not negative. *)
Lemma example_expf_non_negative (x : spec_float) :
  F32.non_negative (Example32.expf x) = true.
Proof.
  destruct x as [[]|[]| |[] m e]; try reflexivity;
    unfold Example32.expf; destruct (SFltb _ _); reflexivity.
Qed.

End Torch32Facts.

(** ** Fusing a window into the single-precision evidence *)

Module Fuse32Facts.
Import Torch32 Predict32.

Section Fuse.

Variables L W : Z.
Variable expf : spec_float -> spec_float.

(** The padded scores of a window that lies within the sequence. *)
Lemma inference_layers32_ok (s B C : Z) (x : tensor) :
  0 <= s -> s + W <= L -> shape x = (B, W, C) ->
  exists pad,
    ZeroPad2d s (L - (s + W)) (Softmax expf x) = Some pad /\
    inference_layers expf s (L - (s + W)) x = Some pad /\
    shape pad = (B, L, C) /\
    forall b p c, entry pad b p c = contribution expf W x s b p c.
Proof.
  intros Hs He Hx. unfold shape in Hx. injection Hx as H0 H1 H2.
  unfold inference_layers, ZeroPad2d.
  destruct (Z.ltb_spec s 0); [lia|].
  destruct (Z.ltb_spec (L - (s + W)) 0); [lia|]. simpl.
  eexists. split; [reflexivity|]. split; [reflexivity|]. split.
  - unfold shape; simpl. rewrite H0, H1, H2. repeat f_equal. lia.
  - intros b p c. cbn [entry]. unfold contribution, Predict.covers.
    cbn [Softmax size1]. rewrite H1. reflexivity.
Qed.

(** One fusion adds, for each head, the contribution of the window. *)
Lemma fuse32_ok (B Cb Cr : Z) (ev : evidence) (w : window_output) :
  well_shaped L W B Cb Cr w ->
  shape (prediction_base_tensor ev) = (B, L, Cb) ->
  shape (prediction_rle_tensor ev) = (B, L, Cr) ->
  exists ev',
    fuse L W expf ev w = Some ev' /\
    shape (prediction_base_tensor ev') = (B, L, Cb) /\
    shape (prediction_rle_tensor ev') = (B, L, Cr) /\
    (forall b p c, 0 <= b < B -> 0 <= p < L -> 0 <= c < Cb ->
       entry (prediction_base_tensor ev') b p c
       = F32.add (entry (prediction_base_tensor ev) b p c)
                 (contribution expf W (output_base w) (chunk_start w) b p c)) /\
    (forall b p c, 0 <= b < B -> 0 <= p < L -> 0 <= c < Cr ->
       entry (prediction_rle_tensor ev') b p c
       = F32.add (entry (prediction_rle_tensor ev) b p c)
                 (contribution expf W (output_rle w) (chunk_start w) b p c)).
Proof.
  intros (Hs & He & Hob & Hor) Hb Hr.
  destruct (inference_layers32_ok _ B Cb _ Hs He Hob) as (pb & _ & Epb & Spb & Vpb).
  destruct (inference_layers32_ok _ B Cr _ Hs He Hor) as (pr & _ & Epr & Spr & Vpr).
  destruct (Torch32Facts.add_ok B L Cb _ pb Hb Spb) as (tb & Etb & Stb & Vtb).
  destruct (Torch32Facts.add_ok B L Cr _ pr Hr Spr) as (tr & Etr & Str & Vtr).
  unfold fuse. rewrite Epb, Epr. cbn [mbind option_bind].
  rewrite Etb, Etr. cbn [mbind option_bind].
  eexists. split; [reflexivity|]. cbn [prediction_base_tensor prediction_rle_tensor].
  split; [exact Stb|]. split; [exact Str|].
  split; intros b p c Hb' Hp' Hc'.
  - rewrite Vtb, Vpb by assumption. reflexivity.
  - rewrite Vtr, Vpr by assumption. reflexivity.
Qed.

(** Fusing well-shaped windows succeeds; every entry of the result is the
    entry it started from with the contributions of the windows added to
    it one after another. *)
Lemma fuse_all32_fold (B Cb Cr : Z) (outs : list window_output) (ev : evidence) :
  Forall (well_shaped L W B Cb Cr) outs ->
  shape (prediction_base_tensor ev) = (B, L, Cb) ->
  shape (prediction_rle_tensor ev) = (B, L, Cr) ->
  exists ev',
    fuse_all L W expf outs ev = Some ev' /\
    shape (prediction_base_tensor ev') = (B, L, Cb) /\
    shape (prediction_rle_tensor ev') = (B, L, Cr) /\
    (forall b p c, 0 <= b < B -> 0 <= p < L -> 0 <= c < Cb ->
       entry (prediction_base_tensor ev') b p c
       = fold_left F32.add
           (map (fun w => contribution expf W (output_base w) (chunk_start w) b p c)
                outs)
           (entry (prediction_base_tensor ev) b p c)) /\
    (forall b p c, 0 <= b < B -> 0 <= p < L -> 0 <= c < Cr ->
       entry (prediction_rle_tensor ev') b p c
       = fold_left F32.add
           (map (fun w => contribution expf W (output_rle w) (chunk_start w) b p c)
                outs)
           (entry (prediction_rle_tensor ev) b p c)).
Proof.
  intros Houts; revert ev; induction Houts as [|w outs Hw _ IH]; intros ev Sb Sr.
  - exists ev. simpl. repeat split; try assumption; intros; reflexivity.
  - destruct (fuse32_ok B Cb Cr ev w Hw Sb Sr) as (ev1 & E1 & Sb1 & Sr1 & Vb1 & Vr1).
    destruct (IH ev1 Sb1 Sr1) as (ev' & E' & Sb' & Sr' & Vb' & Vr').
    exists ev'. unfold fuse_all in *. cbn [Py.for_each]. rewrite E1.
    cbn [mbind option_bind].
    split; [exact E'|]. split; [exact Sb'|]. split; [exact Sr'|].
    split; intros b p c Hb Hp Hc; cbn [map fold_left].
    + rewrite Vb', Vb1 by assumption. reflexivity.
    + rewrite Vr', Vr1 by assumption. reflexivity.
Qed.

Hypothesis expf_non_negative : forall x, F32.non_negative (expf x) = true.

(** Starting from zero, the contributions of all windows add up to the
    sum of the scores of the windows that cover the position, taken in the
    order of the list. *)
Lemma contributions32_of_covering (out : window_output -> tensor)
    (outs : list window_output) (b p c : Z) :
  fold_left F32.add
    (map (fun w => contribution expf W (out w) (chunk_start w) b p c) outs)
    F32.zero
  = F32.sum (map (fun w => entry (Softmax expf (out w)) b (p - chunk_start w) c)
                 (covering W p outs)).
Proof.
  unfold contribution, F32.sum, covering.
  apply (F32Facts.fold_add_skip
           (fun w => Predict.covers W p (chunk_start w))
           (fun w => entry (Softmax expf (out w)) b (p - chunk_start w) c));
    [reflexivity|].
  intros w. apply Torch32Facts.Softmax_non_negative, expf_non_negative.
Qed.

(** Fusing well-shaped windows into zero evidence: every entry is the
    single-precision sum of the scores of the covering windows, in the
    order in which the windows were fused. *)
Lemma fuse_all32_sum (B Cb Cr : Z) (outs : list window_output) :
  Forall (well_shaped L W B Cb Cr) outs ->
  exists ev,
    fuse_all L W expf outs (Evidence (zero_tensor B L Cb) (zero_tensor B L Cr))
    = Some ev /\
    shape (prediction_base_tensor ev) = (B, L, Cb) /\
    shape (prediction_rle_tensor ev) = (B, L, Cr) /\
    (forall b p c, 0 <= b < B -> 0 <= p < L -> 0 <= c < Cb ->
       entry (prediction_base_tensor ev) b p c
       = F32.sum (map (fun w => entry (Softmax expf (output_base w)) b
                                      (p - chunk_start w) c)
                      (covering W p outs))) /\
    (forall b p c, 0 <= b < B -> 0 <= p < L -> 0 <= c < Cr ->
       entry (prediction_rle_tensor ev) b p c
       = F32.sum (map (fun w => entry (Softmax expf (output_rle w)) b
                                      (p - chunk_start w) c)
                      (covering W p outs))).
Proof.
  intros Houts.
  destruct (fuse_all32_fold B Cb Cr outs
              (Evidence (zero_tensor B L Cb) (zero_tensor B L Cr))
              Houts eq_refl eq_refl) as (ev & E & Sb & Sr & Vb & Vr).
  exists ev. split; [exact E|]. split; [exact Sb|]. split; [exact Sr|].
  split; intros b p c Hb Hp Hc.
  - rewrite Vb by assumption. apply (contributions32_of_covering output_base).
  - rewrite Vr by assumption. apply (contributions32_of_covering output_rle).
Qed.

End Fuse.








End Fuse32Facts.

(** ** One batch in single precision *)

Module Predict32Facts.
Import Torch32 Predict32.

Section Batch.

Variables L Cb Cr W J G H : Z.
Variable expf : spec_float -> spec_float.
Variable model : tensor -> tensor -> tensor * tensor * tensor.
Variable imgs : tensor.
Variables B F : Z.

Hypothesis W_nonneg : 0 <= W.
Hypothesis imgs_shape : shape imgs = (B, L, F).

(** The model answers a chunk with logits of the chunk's batch size and
    length and of the configured numbers of classes. *)
Hypothesis model_shape : forall x h,
  shape (model x h).1.1 = (size0 x, size1 x, Cb) /\
  shape (model x h).1.2 = (size0 x, size1 x, Cr).

Abbreviation infer_all := (infer_all W model imgs).

Lemma chunk32_shape (s : Z) :
  0 <= s -> s + W <= L -> shape (image_chunk W imgs s) = (B, W, F).
Proof.
  intros Hs He. unfold shape in imgs_shape. injection imgs_shape as H0 H1 H2.
  unfold image_chunk, slice1, shape, Py.slice_bound; simpl.
  rewrite H0, H1, H2.
  destruct (Z.ltb_spec s 0); [lia|].
  destruct (Z.ltb_spec (s + W) 0); [lia|].
  repeat f_equal. lia.
Qed.

Lemma infer_all32_offsets (ws : list Z) (h : tensor) :
  map chunk_start (infer_all h ws) = ws.
Proof.
  revert h; induction ws as [|i ws IH]; intros h; simpl; [reflexivity|].
  unfold infer. destruct (model _ h) as [[ob or] h']. simpl. f_equal. apply IH.
Qed.

Lemma infer_all32_shapes (ws : list Z) (h : tensor) :
  Forall (fun s => 0 <= s /\ s + W <= L) ws ->
  Forall (well_shaped L W B Cb Cr) (infer_all h ws).
Proof.
  intros Hws; revert h; induction Hws as [|i ws [Hs He] _ IH]; intros h; simpl;
    [constructor|].
  unfold infer.
  pose proof (model_shape (image_chunk W imgs i) h) as [Sb Sr].
  pose proof (chunk32_shape i Hs He) as Sc.
  assert (size0 (image_chunk W imgs i) = B /\ size1 (image_chunk W imgs i) = W)
    as [C0 C1] by (unfold shape in Sc; split; congruence).
  rewrite C0, C1 in Sb, Sr.
  destruct (model _ h) as [[ob or] h']. simpl in *. constructor; [|apply IH].
  unfold well_shaped; simpl. auto.
Qed.

(** The loop body along a list of offsets fuses the logits the model gives
    along them. *)
Lemma window_steps32 (ws : list Z) (st : locals) :
  is_Some (fuse_all L W expf (infer_all (hidden st) ws) (sums st)) ->
  exists h,
    Py.for_each (window_step L W expf model imgs) ws st
    = ev ← fuse_all L W expf (infer_all (hidden st) ws) (sums st);
      Some (Locals h ev).
Proof.
  revert st; induction ws as [|i ws IH]; intros [h ev]; simpl.
  - intros _. exists h. reflexivity.
  - unfold window_step, fuse_all; simpl. unfold infer.
    destruct (model _ h) as [[ob or] h']. simpl.
    destruct (fuse L W expf ev _) as [ev'|]; simpl.
    + intros Hs. apply (IH (Locals h' ev')). exact Hs.
    + intros [x Hx]. discriminate Hx.
Qed.

Hypothesis J_pos : 0 < J.
Hypothesis B_nonneg : 0 <= B.
Hypothesis L_nonneg : 0 <= L.
Hypothesis Cb_nonneg : 0 <= Cb.
Hypothesis Cr_nonneg : 0 <= Cr.
Hypothesis G_nonneg : 0 <= G.
Hypothesis H_nonneg : 0 <= H.
Hypothesis expf_non_negative : forall x, F32.non_negative (expf x) = true.

Abbreviation h0 := (zero_tensor B (2 * G) H).
Abbreviation ev0 := (Evidence (zero_tensor B L Cb) (zero_tensor B L Cr)).

(** A batch starts from a zero hidden state and zero sums. *)
Lemma batch_start32_ok : batch_start Cb Cr G H imgs = Some (Locals h0 ev0).
Proof.
  unfold shape in imgs_shape. injection imgs_shape as H0 H1 H2.
  unfold batch_start. rewrite H0, H1.
  rewrite !Torch32Facts.zeros32_ok by lia. reflexivity.
Qed.

(** The batch runs through: the windows of the schedule are evaluated and
    every entry of the sums is the single-precision sum of the scores of
    the covering windows, added in the order of the schedule. *)
Lemma accumulate32_ok :
  exists ws st,
    Predict.windows L W J = Some ws /\
    accumulate L Cb Cr W J G H expf model imgs = Some st /\
    shape (prediction_base_tensor (sums st)) = (B, L, Cb) /\
    shape (prediction_rle_tensor (sums st)) = (B, L, Cr) /\
    (forall b p c, 0 <= b < B -> 0 <= p < L -> 0 <= c < Cb ->
       entry (prediction_base_tensor (sums st)) b p c
       = F32.sum (map (fun w => entry (Softmax expf (output_base w)) b
                                      (p - chunk_start w) c)
                      (covering W p (infer_all h0 ws)))) /\
    (forall b p c, 0 <= b < B -> 0 <= p < L -> 0 <= c < Cr ->
       entry (prediction_rle_tensor (sums st)) b p c
       = F32.sum (map (fun w => entry (Softmax expf (output_rle w)) b
                                      (p - chunk_start w) c)
                      (covering W p (infer_all h0 ws)))).
Proof.
  destruct (BatchFacts.windows_ok L W J J_pos) as (ws & Hws & Hin & _).
  pose proof (infer_all32_shapes ws h0 Hin) as Hshapes.
  destruct (Fuse32Facts.fuse_all32_sum L W expf expf_non_negative B Cb Cr
              (infer_all h0 ws) Hshapes) as (ev & Eev & Sb & Sr & Vb & Vr).
  destruct (window_steps32 ws (Locals h0 ev0)) as (h & Hrun).
  { cbn [hidden sums]. rewrite Eev. eauto. }
  cbn [hidden sums] in Hrun. rewrite Eev in Hrun. cbn [mbind option_bind] in Hrun.
  assert (forall (St : Type) (body : St -> Z -> option St) (st : St),
            Predict.window_loop L W J body st = Py.for_each body ws st) as Hloop.
  { intros St body st. unfold Predict.windows, Predict.window_loop in *.
    destruct (Py.range 0 L J) as [items|]; [|discriminate Hws].
    cbn [mbind option_bind] in *.
    apply PyFacts.for_break_each. exact Hws. }
  exists ws, (Locals h ev).
  split; [exact Hws|]. split.
  { unfold accumulate. rewrite batch_start32_ok. cbn [mbind option_bind].
    rewrite Hloop. exact Hrun. }
  cbn [sums]. auto.
Qed.

End Batch.

Lemma covering_well_shaped (L W B Cb Cr p : Z) (outs : list window_output)
    (w : window_output) :
  Forall (well_shaped L W B Cb Cr) outs -> In w (covering W p outs) ->
  size2 (output_base w) = Cb /\ size2 (output_rle w) = Cr.
Proof.
  intros Houts Hw. apply filter_In in Hw. destruct Hw as [Hw _].
  rewrite Forall_forall in Houts. apply list_elem_of_In in Hw.
  destruct (Houts w Hw) as (_ & _ & Sb & Sr).
  unfold shape in Sb, Sr. split; congruence.
Qed.

Lemma covering_none (W p : Z) (outs : list window_output) :
  (forall s, s ∈ map chunk_start outs -> Predict.covers W p s = false) ->
  covering W p outs = [].
Proof.
  induction outs as [|w outs IH]; intros Hun; [reflexivity|].
  unfold covering in *. cbn [List.filter].
  rewrite (Hun (chunk_start w)) by (cbn [map]; apply list_elem_of_here).
  apply IH. intros s Hs. apply Hun. cbn [map]. apply list_elem_of_further, Hs.
Qed.

(** C3: the two sums of a batch start as zero; after the window loop the
    evidence of either head at a position is the sum of the scores, at
    that position, of the windows whose range [[start, start + W)]
    contains it: the single-precision sum, added up from zero in the
    increasing order of the start offsets.  So it is zero where no window
    covers the position; and for [L = 6], [W = 4], [J = 2] the windows start
    at 0 and 2, positions 2 and 3 are covered by both and positions 0, 1, 4
    and 5 by one. *)
Theorem evidence_is_the_rounded_sum_of_the_covering_windows
    (L Cb Cr W J G H : Z) (expf : spec_float -> spec_float)
    (model : tensor -> tensor -> tensor * tensor * tensor) (imgs : tensor)
    (B F : Z) :
  0 < J -> 0 <= W -> shape imgs = (B, L, F) ->
  0 <= B -> 0 <= L -> 0 <= Cb -> 0 <= Cr -> 0 <= G -> 0 <= H ->
  (forall x, F32.non_negative (expf x) = true) ->
  (forall x h,
     shape (model x h).1.1 = (size0 x, size1 x, Cb) /\
     shape (model x h).1.2 = (size0 x, size1 x, Cr)) ->
  exists init ws st,
    batch_start Cb Cr G H imgs = Some init /\
    (forall b p c,
       entry (prediction_base_tensor (sums init)) b p c = F32.zero /\
       entry (prediction_rle_tensor (sums init)) b p c = F32.zero) /\
    Predict.windows L W J = Some ws /\
    accumulate L Cb Cr W J G H expf model imgs = Some st /\
    let outs := infer_all W model imgs (hidden init) ws in
    map chunk_start outs = ws /\
    (forall b p c, 0 <= b < B -> 0 <= p < L -> 0 <= c < Cb ->
       entry (prediction_base_tensor (sums st)) b p c
       = F32.sum
           (map (fun w => score expf Cb (entry (output_base w) b (p - chunk_start w)) c)
                (covering W p outs))) /\
    (forall b p c, 0 <= b < B -> 0 <= p < L -> 0 <= c < Cr ->
       entry (prediction_rle_tensor (sums st)) b p c
       = F32.sum
           (map (fun w => score expf Cr (entry (output_rle w) b (p - chunk_start w)) c)
                (covering W p outs))) /\
    (forall b p, 0 <= b < B -> 0 <= p < L ->
       (forall s, s ∈ ws -> Predict.covers W p s = false) ->
       (forall c, 0 <= c < Cb ->
          entry (prediction_base_tensor (sums st)) b p c = F32.zero) /\
       (forall c, 0 <= c < Cr ->
          entry (prediction_rle_tensor (sums st)) b p c = F32.zero)) /\
    Predict.windows 6 4 2 = Some [0; 2] /\
    map (fun p => List.filter (Predict.covers 4 p) [0; 2]) [0; 1; 2; 3; 4; 5]
    = [[0]; [0]; [0; 2]; [0; 2]; [2]; [2]].
Proof.
  intros HJ HW Himgs HB HL HCb HCr HG HH Hexp Hmodel.
  destruct (accumulate32_ok L Cb Cr W J G H expf model imgs B F
              HW Himgs Hmodel HJ HB HL HCb HCr HG HH Hexp)
    as (ws & st & Hws & Hacc & _ & _ & Vb & Vr).
  destruct (BatchFacts.windows_ok L W J HJ) as (ws' & Hws' & Hin & _).
  assert (ws' = ws) as -> by congruence.
  pose proof (infer_all32_shapes L Cb Cr W model imgs B F HW Himgs Hmodel ws
                (zero_tensor B (2 * G) H) Hin) as Hshapes.
  pose proof (infer_all32_offsets W model imgs ws (zero_tensor B (2 * G) H)) as Hoff.
  eexists _, ws, st.
  split; [apply (batch_start32_ok L Cb Cr G H imgs B F); assumption|].
  split; [intros; split; reflexivity|].
  split; [exact Hws|]. split; [exact Hacc|]. cbn [hidden].
  split; [exact Hoff|].
  split; [|split; [|split; [|split; vm_compute; reflexivity]]].
  - intros b p c Hb Hp Hc. rewrite Vb by assumption. f_equal.
    apply map_ext_in. intros w Hw.
    destruct (covering_well_shaped L W B Cb Cr p _ w Hshapes Hw) as [<- _].
    apply Torch32Facts.Softmax_score.
  - intros b p c Hb Hp Hc. rewrite Vr by assumption. f_equal.
    apply map_ext_in. intros w Hw.
    destruct (covering_well_shaped L W B Cb Cr p _ w Hshapes Hw) as [_ <-].
    apply Torch32Facts.Softmax_score.
  - intros b p Hb Hp Hun. rewrite <- Hoff in Hun.
    split; intros c Hc.
    + rewrite Vb, (covering_none W p _ Hun) by assumption. reflexivity.
    + rewrite Vr, (covering_none W p _ Hun) by assumption. reflexivity.
Qed.

Lemma example32_model_shape (x h : tensor) :
  shape (Example32.model x h).1.1 = (size0 x, size1 x, 3) /\
  shape (Example32.model x h).1.2 = (size0 x, size1 x, 2).
Proof. split; reflexivity. Qed.

(** The batch of the spec's scenario: [L = 6], [W = 4], [J = 2]. *)
Lemma evidence_is_the_rounded_sum_of_the_covering_windows_witness :
  exists st,
    accumulate 6 3 2 4 2 1 1 Example32.expf Example32.model Example32.image6
    = Some st.
Proof.
  destruct (evidence_is_the_rounded_sum_of_the_covering_windows 6 3 2 4 2 1 1
              Example32.expf Example32.model Example32.image6 1 1)
    as (init & ws & st & _ & _ & _ & Hacc & _);
    first [lia | reflexivity | apply Torch32Facts.example_expf_non_negative
           | apply example32_model_shape | idtac].
  exists st. exact Hacc.
Defined.

(** With [L = 5], [W = 3], [J = 1] the windows at 0, 1 and 2 cover
    position 2, and on [image5] their scores for class 0 there are 1, 1 and
    the single nearest to 1/3.  The evidence the loop leaves is
    [9786709 / 2^22]; the exact sum of the three scores is
    [78293675 / 2^25], which no single holds; and the same three scores
    added in single precision in the order 1, 1/3, 1 give
    [9786710 / 2^22]. *)
Lemma evidence_of_three_windows_is_not_their_exact_sum :
  Predict.windows 5 3 1 = Some [0; 1; 2] /\
  (st ← accumulate 5 3 2 3 1 1 1 Example32.expf Example32.model Example32.image5;
   Some (entry (prediction_base_tensor (sums st)) 0 2 0))
  = Some (S754_finite false 9786709 (-22)) /\
  map (fun w => score Example32.expf 3 (entry (output_base w) 0 (2 - chunk_start w)) 0)
      (covering 3 2 (infer_all 3 Example32.model Example32.image5
                               (zero_tensor 1 2 1) [0; 1; 2]))
  = [F32.one; F32.one; Example32.third] /\
  Qreduction.Qred (F32.exact_sum [F32.one; F32.one; Example32.third])
  = QArith_base.Qmake 78293675 33554432 /\
  Qreduction.Qred (F32.to_Q (S754_finite false 9786709 (-22)))
  = QArith_base.Qmake 9786709 4194304 /\
  QArith_base.Qcompare
    (F32.to_Q (S754_finite false 9786709 (-22)))
    (F32.exact_sum [F32.one; F32.one; Example32.third])
  = Lt /\
  F32.sum [F32.one; Example32.third; F32.one] = S754_finite false 9786710 (-22).
Proof. repeat split; vm_compute; reflexivity. Qed.

End Predict32Facts.
(** ** More on the window schedule *)

Module ScheduleMore.
Import Torch Predict More.

Lemma windows_form (L W J : Z) :
  0 < J -> 0 < W ->
  windows L W J = Some (multiples J (Z.to_nat ((L - W) / J + 1))).
Proof.
  intros HJ HW. unfold windows, window_loop, Py.range, Py.range_length.
  destruct (Z.eqb_spec J 0) as [|_]; [lia|].
  destruct (Z.ltb_spec 0 J) as [_|]; [|lia].
  cbn [mbind option_bind]. rewrite Z.sub_0_r.
  set (n := Z.to_nat ((L - W) / J + 1)).
  set (N := Z.to_nat (if 0 <? L then (L - 1) / J + 1 else 0)).
  pose proof (Z.mul_div_le (L - W) J HJ) as Hlow.
  pose proof (Z.mul_succ_div_gt (L - W) J HJ) as Hup.
  assert (n <= N)%nat as HnN.
  { unfold n, N. destruct (Z.ltb_spec 0 L).
    - pose proof (Z.div_le_mono (L - W) (L - 1) J HJ ltac:(lia)). lia.
    - assert ((L - W) / J < 0) by (apply Z.div_lt_upper_bound; lia). lia. }
  replace N with (n + (N - n))%nat by lia.
  rewrite seq_app, map_app.
  erewrite (map_ext _ (fun m : nat => Z.of_nat m * J)) by (intros; lia).
  apply (PyFacts.for_break_record _ _ _ []).
  - apply Forall_forall. intros x Hx.
    apply list_elem_of_In, in_map_iff in Hx. destruct Hx as (m & <- & Hm).
    apply in_seq in Hm. unfold past_end. rewrite Z.gtb_ltb. apply Z.ltb_ge.
    unfold n in Hm. nia.
  - intros i Hi. destruct (N - n)%nat as [|r]; [discriminate|].
    simpl in Hi. injection Hi as <-. unfold past_end.
    rewrite Z.gtb_ltb. apply Z.ltb_lt. unfold n.
    destruct (Z_lt_le_dec ((L - W) / J + 1) 0) as [Hneg|Hpos].
    + replace (Z.to_nat ((L - W) / J + 1)) with 0%nat by lia. nia.
    + rewrite ?Nat.add_0_l, Z2Nat.id by lia. nia.
Qed.

(** X1: for a positive jump and a positive window width the loop evaluates
    the windows at the first [(L - W) / J + 1] multiples of the jump, and
    none when the window is wider than the sequence. *)
Theorem windows_closed_form (L W J : Z) :
  0 < J -> 0 < W ->
  exists ws,
    windows L W J = Some ws /\
    ws = multiples J (Z.to_nat ((L - W) / J + 1)) /\
    Z.of_nat (length ws) = Z.max 0 ((L - W) / J + 1) /\
    (L < W -> ws = []).
Proof.
  intros HJ HW. eexists. split; [apply windows_form; assumption|].
  split; [reflexivity|]. split.
  - unfold multiples. rewrite length_map, length_seq. lia.
  - intros HLW.
    assert ((L - W) / J < 0) by (apply Z.div_lt_upper_bound; lia).
    replace (Z.to_nat ((L - W) / J + 1)) with 0%nat by lia. reflexivity.
Qed.

Lemma windows_closed_form_witness :
  exists ws, windows 1010 100 50 = Some ws /\ Z.of_nat (length ws) = 19.
Proof.
  destruct (windows_closed_form 1010 100 50) as (ws & Hws & _ & Hlen & _);
    [lia | lia |].
  exists ws. split; [exact Hws | exact Hlen].
Defined.

(** X2: when the jump is at most the window width, the positions covered by
    some window are exactly those before the end of the last window,
    [0 <= p < ((L - W) / J) * J + W]; fewer than [J] positions at the end
    stay uncovered, and none when the jump divides [L - W]. *)
Theorem covered_positions (L W J : Z) :
  0 < J -> J <= W -> W <= L ->
  exists ws,
    windows L W J = Some ws /\
    (forall p, (exists s, s ∈ ws /\ covers W p s = true)
               <-> 0 <= p < (L - W) / J * J + W) /\
    L - ((L - W) / J * J + W) < J /\
    ((L - W) mod J = 0 ->
       forall p, 0 <= p < L -> exists s, s ∈ ws /\ covers W p s = true).
Proof.
  intros HJ HJW HWL.
  exists (multiples J (Z.to_nat ((L - W) / J + 1))).
  split; [apply windows_form; lia|].
  set (k := (L - W) / J).
  assert (0 <= k) as Hk by (apply Z.div_pos; lia).
  pose proof (Z.mul_div_le (L - W) J HJ) as Hlow.
  pose proof (Z.mul_succ_div_gt (L - W) J HJ) as Hup. fold k in Hlow, Hup.
  assert (Hin : forall s, s ∈ multiples J (Z.to_nat (k + 1))
                          <-> exists m, 0 <= m <= k /\ s = m * J).
  { intros s. unfold multiples. rewrite list_elem_of_In, in_map_iff. split.
    - intros (m & <- & Hm). apply in_seq in Hm. exists (Z.of_nat m). lia.
    - intros (m & Hm & ->). exists (Z.to_nat m). rewrite in_seq. lia. }
  assert (Hcov : forall p, (exists s, s ∈ multiples J (Z.to_nat (k + 1))
                                      /\ covers W p s = true)
                           <-> 0 <= p < k * J + W).
  { intros p. unfold covers. split.
    - intros (s & Hs & Hc). apply Hin in Hs. destruct Hs as (m & Hm & ->).
      apply andb_true_iff in Hc. destruct Hc as [H1 H2].
      apply Z.leb_le in H1. apply Z.ltb_lt in H2. nia.
    - intros Hp.
      pose proof (Z.mul_div_le p J HJ) as Hpl.
      pose proof (Z.mul_succ_div_gt p J HJ) as Hpu.
      assert (0 <= p / J) by (apply Z.div_pos; lia).
      destruct (Z_le_gt_dec (p / J) k) as [Hle|Hgt].
      + exists (p / J * J). split; [apply Hin; exists (p / J); lia|].
        apply andb_true_iff. split; [apply Z.leb_le | apply Z.ltb_lt]; nia.
      + exists (k * J). split; [apply Hin; exists k; lia|].
        apply andb_true_iff. split; [apply Z.leb_le | apply Z.ltb_lt]; nia. }
  split; [exact Hcov|]. split; [lia|].
  intros Hmod p Hp. apply Hcov.
  pose proof (Z.div_mod (L - W) J ltac:(lia)) as Hdm. fold k in Hdm. lia.
Qed.

Lemma covered_positions_witness :
  exists ws, windows 1010 100 50 = Some ws /\
             1010 - ((1010 - 100) / 50 * 50 + 100) < 50.
Proof.
  destruct (covered_positions 1010 100 50) as (ws & Hws & _ & Htail & _);
    [lia | lia | lia |].
  exists ws. split; [exact Hws | exact Htail].
Defined.

Lemma multiples_NoDup (J : Z) (a n : nat) :
  0 < J -> List.NoDup (map (fun m : nat => Z.of_nat m * J) (seq a n)).
Proof.
  intros HJ. apply NoDup_ListNoDup.
  apply (NoDup_fmap_2_strong (fun m : nat => Z.of_nat m * J)).
  - intros x y _ _ E. nia.
  - apply NoDup_seq.
Qed.

(** The windows that cover a position are among [p/J - (p-W)/J] consecutive
    multiples of the jump. *)
Lemma coverage_bound (W J p : Z) (n : nat) :
  0 < J -> 0 < W ->
  (coverage W p (multiples J n) <= Z.to_nat ((W + J - 1) / J))%nat.
Proof.
  intros HJ HW. unfold coverage.
  set (lo := (p - W) / J + 1).
  set (cnt := Z.to_nat (p / J - (p - W) / J)).
  pose proof (Z.mul_div_le p J HJ) as Hp1.
  pose proof (Z.mul_succ_div_gt p J HJ) as Hp2.
  pose proof (Z.mul_div_le (p - W) J HJ) as Hq1.
  pose proof (Z.mul_succ_div_gt (p - W) J HJ) as Hq2.
  pose proof (Z.mul_div_le (W + J - 1) J HJ) as Hw1.
  pose proof (Z.mul_succ_div_gt (W + J - 1) J HJ) as Hw2.
  assert (length (List.filter (covers W p) (multiples J n)) <= cnt)%nat as Hle.
  { transitivity
      (length (map (fun i : nat => (lo + Z.of_nat i) * J) (seq 0 cnt)));
      [|rewrite length_map, length_seq; lia].
    apply List.NoDup_incl_length.
    - apply List.NoDup_filter, multiples_NoDup, HJ.
    - intros s Hs. apply filter_In in Hs. destruct Hs as [Hs Hc].
      unfold multiples in Hs. apply in_map_iff in Hs. destruct Hs as (m & <- & _).
      unfold covers in Hc. apply andb_true_iff in Hc. destruct Hc as [H1 H2].
      apply Z.leb_le in H1. apply Z.ltb_lt in H2.
      assert (lo <= Z.of_nat m) as Hlo by (unfold lo; nia).
      assert (Z.of_nat m <= p / J) as Hhi by nia.
      apply in_map_iff. exists (Z.to_nat (Z.of_nat m - lo)).
      rewrite in_seq, Z2Nat.id by lia. split; [f_equal; lia|].
      unfold cnt, lo in *. lia. }
  assert (p / J - (p - W) / J <= (W + J - 1) / J) by nia.
  unfold cnt in Hle. lia.
Qed.

(** X16: no position is covered by more than [ceil(W / J)] windows, so no
    more than that many normalised scores are ever added into one entry of
    the evidence. *)
Theorem at_most_ceil_W_over_J_windows_cover_a_position (L W J : Z) :
  0 < J -> 0 < W ->
  exists ws,
    windows L W J = Some ws /\
    forall p, Z.of_nat (coverage W p ws) <= (W + J - 1) / J.
Proof.
  intros HJ HW. eexists. split; [apply windows_form; assumption|].
  intros p. pose proof (coverage_bound W J p
                          (Z.to_nat ((L - W) / J + 1)) HJ HW) as Hb.
  assert (0 <= (W + J - 1) / J) by (apply Z.div_pos; lia). lia.
Qed.

Lemma at_most_ceil_W_over_J_windows_cover_a_position_witness :
  exists ws, windows 1000 100 50 = Some ws /\
             Z.of_nat (coverage 100 475 ws) <= 2.
Proof.
  destruct (at_most_ceil_W_over_J_windows_cover_a_position 1000 100 50)
    as (ws & Hws & Hc); [lia | lia |].
  exists ws. split; [exact Hws | apply (Hc 475)].
Defined.

End ScheduleMore.

(** ** More on the evidence of a batch *)

Module EvidenceMore.
Import Torch Predict More.

Lemma indices_elem (n k : Z) : In k (Py.indices n) <-> 0 <= k < n.
Proof.
  unfold Py.indices. rewrite in_map_iff. split.
  - intros (m & <- & Hm). apply in_seq in Hm. lia.
  - intros Hk. exists (Z.to_nat k). rewrite in_seq. lia.
Qed.

Lemma elem_le_sum (f : Z -> R) (l : list Z) (k : Z) :
  (forall j, 0 <= f j)%R -> In k l -> (f k <= sum_list (map f l))%R.
Proof.
  intros Hf. induction l as [|x l IH]; simpl; [contradiction|].
  assert (0 <= sum_list (map f l))%R as Hs.
  { clear IH. induction l as [|y l IH]; simpl; [lra|]. pose proof (Hf y). lra. }
  intros [->|Hin]; [lra|]. pose proof (Hf x). specialize (IH Hin). lra.
Qed.

(** A normalised score is positive, and at most one for a class of the
    class axis. *)
Lemma Softmax_entry_bounds (x : tensor) (b p c : Z) :
  0 <= c < size2 x -> (0 < entry (Softmax x) b p c <= 1)%R.
Proof.
  intros Hc. simpl. unfold class_sum.
  set (S := sum_list _).
  assert (exp (entry x b p c) <= S)%R as Hle.
  { apply (elem_le_sum (fun k => exp (entry x b p k)));
      [intros j; left; apply exp_pos | apply indices_elem, Hc]. }
  pose proof (exp_pos (entry x b p c)) as Hpos.
  assert (0 < S)%R as HS by lra. split.
  - apply Rdiv_lt_0_compat; assumption.
  - apply (Rmult_le_reg_r S); [assumption|].
    unfold Rdiv. rewrite Rmult_assoc, Rinv_l by lra. lra.
Qed.

Section Mass.

Variable W : Z.
Variable out : window_output -> tensor.

Abbreviation total outs b p c :=
  (sum_list (map (fun w => contribution W (out w) (chunk_start w) b p c) outs)).
Abbreviation covering outs p :=
  (List.filter (fun w => covers W p (chunk_start w)) outs).

(** Each entry lies between zero and the number of covering windows. *)
Lemma contributions_bounds (C : Z) (outs : list window_output) (b p c : Z) :
  0 <= c < C -> Forall (fun w => size2 (out w) = C) outs ->
  (0 <= total outs b p c <= INR (length (covering outs p)))%R.
Proof.
  intros Hc Houts. induction Houts as [|w outs Hw _ IH]; simpl; [lra|].
  unfold contribution at 1 3.
  destruct (covers W p (chunk_start w)).
  - pose proof (Softmax_entry_bounds (out w) b (p - chunk_start w) c
                  ltac:(lia)) as Hs.
    cbn [length]. rewrite S_INR. simpl in Hs |- *. lra.
  - lra.
Qed.

Lemma covering_length (outs : list window_output) (p : Z) :
  length (covering outs p) = coverage W p (map chunk_start outs).
Proof.
  unfold coverage. induction outs as [|w outs IH]; simpl; [reflexivity|].
  destruct (covers W p (chunk_start w)); simpl; rewrite IH; reflexivity.
Qed.

End Mass.

Lemma max2_shape (x : tensor) (v : Z -> Z -> R) (l : labels) :
  max2 x = Some (v, l) ->
  rows l = size0 x /\ cols l = size1 x /\
  forall b p, label l b p = argmax (size2 x) (entry x b p).
Proof.
  unfold max2. destruct (size2 x <=? 0); [discriminate|].
  intros [= <- <-]. simpl. auto.
Qed.

Section Batch.

Variables L Cb Cr W J G H : Z.
Variable model : tensor -> tensor -> tensor * tensor * tensor.
Variable imgs : tensor.
Variables B F : Z.

Hypothesis J_pos : 0 < J.
Hypothesis W_nonneg : 0 <= W.
Hypothesis imgs_shape : shape imgs = (B, L, F).
Hypothesis B_nonneg : 0 <= B.
Hypothesis L_nonneg : 0 <= L.
Hypothesis Cb_pos : 0 < Cb.
Hypothesis Cr_pos : 0 < Cr.
Hypothesis G_nonneg : 0 <= G.
Hypothesis H_nonneg : 0 <= H.
Hypothesis model_shape : forall x h,
  shape (model x h).1.1 = (size0 x, size1 x, Cb) /\
  shape (model x h).1.2 = (size0 x, size1 x, Cr).

Abbreviation h0 := (zero_tensor B (2 * G) H).
Abbreviation outs ws := (infer_all W model imgs h0 ws).

(** What the batch lemmas give, with the labels. *)
Lemma batch_run :
  exists ws st base_labels rle_labels,
    windows L W J = Some ws /\
    Forall (fun s => 0 <= s /\ s + W <= L) ws /\
    accumulate L Cb Cr W J G H model imgs = Some st /\
    accumulate_logged L Cb Cr W J G H model imgs
    = Some (st, calls W model imgs h0 ws) /\
    predict_labels L Cb Cr W J G H model imgs = Some (base_labels, rle_labels) /\
    Forall (well_shaped L W B Cb Cr) (outs ws) /\
    map chunk_start (outs ws) = ws /\
    (forall b p c,
       entry (prediction_base_tensor (sums st)) b p c
       = sum_list (map (fun w => contribution W (output_base w)
                                   (chunk_start w) b p c) (outs ws))) /\
    (forall b p c,
       entry (prediction_rle_tensor (sums st)) b p c
       = sum_list (map (fun w => contribution W (output_rle w)
                                   (chunk_start w) b p c) (outs ws))) /\
    rows base_labels = B /\ cols base_labels = L /\
    rows rle_labels = B /\ cols rle_labels = L /\
    (forall b p, label base_labels b p
                 = argmax Cb (entry (prediction_base_tensor (sums st)) b p)) /\
    (forall b p, label rle_labels b p
                 = argmax Cr (entry (prediction_rle_tensor (sums st)) b p)).
Proof.
  destruct (BatchFacts.accumulate_ok L Cb Cr W J G H model imgs B F
              W_nonneg imgs_shape model_shape J_pos B_nonneg L_nonneg
              ltac:(lia) ltac:(lia) G_nonneg H_nonneg)
    as (ws & st & Hws & Hin & _ & Hacc & Hlog & _ & Sb & Sr & Vb & Vr).
  unfold shape in Sb, Sr. injection Sb as Sb0 Sb1 Sb2. injection Sr as Sr0 Sr1 Sr2.
  destruct (max2 (prediction_base_tensor (sums st))) as [[vb lb]|] eqn:Eb;
    [|unfold max2 in Eb; destruct (Z.leb_spec (size2 (prediction_base_tensor (sums st))) 0);
      [lia | discriminate]].
  destruct (max2 (prediction_rle_tensor (sums st))) as [[vr lr]|] eqn:Er;
    [|unfold max2 in Er; destruct (Z.leb_spec (size2 (prediction_rle_tensor (sums st))) 0);
      [lia | discriminate]].
  destruct (max2_shape _ _ _ Eb) as (Rb & Kb & Lb).
  destruct (max2_shape _ _ _ Er) as (Rr & Kr & Lr).
  exists ws, st, lb, lr.
  split; [exact Hws|]. split; [exact Hin|]. split; [exact Hacc|].
  split; [exact Hlog|]. split.
  { unfold predict_labels. rewrite Hacc. cbn [mbind option_bind].
    unfold resolve. rewrite Eb. cbn [mbind option_bind]. rewrite Er. reflexivity. }
  split; [apply (BatchFacts.infer_all_shapes L Cb Cr W model imgs B F); assumption|].
  split; [apply BatchFacts.infer_all_offsets|].
  split; [exact Vb|]. split; [exact Vr|].
  rewrite Rb, Kb, Rr, Kr, Sb0, Sb1, Sr0, Sr1.
  repeat (split; [reflexivity|]).
  split; intros b p; [rewrite Lb, Sb2 | rewrite Lr, Sr2]; reflexivity.
Qed.

End Batch.

End EvidenceMore.

(** ** More on one batch of [predict] *)

Module BatchMore.
Import Torch Predict More.

Section Batch.

Variables L Cb Cr W J G H : Z.
Variable model : tensor -> tensor -> tensor * tensor * tensor.
Variable imgs : tensor.
Variables B F : Z.

Abbreviation h0 := (zero_tensor B (2 * G) H).
Abbreviation outs ws := (infer_all W model imgs h0 ws).

Ltac run_batch ws st lb lr :=
  destruct (EvidenceMore.batch_run L Cb Cr W J G H model imgs B F)
    as (ws & st & lb & lr & ?Hws & ?Hin & ?Hacc & ?Hlog & ?Hlabels & ?Hshapes
        & ?Hoff & ?Vb & ?Vr & ?Rb & ?Kb & ?Rr & ?Kr & ?Lb & ?Lr);
  [assumption .. |].

Lemma base_classes (ws : list Z) :
  Forall (well_shaped L W B Cb Cr) (outs ws) ->
  Forall (fun w => size2 (output_base w) = Cb) (outs ws) /\
  Forall (fun w => size2 (output_rle w) = Cr) (outs ws).
Proof.
  intros Hs. split; eapply Forall_impl; try exact Hs;
    intros w (_ & _ & Sb & Sr); unfold shape in Sb, Sr; congruence.
Qed.

(** X4: every entry of the evidence for a class of the class axis lies
    between zero and the number of windows that cover its position. *)
Theorem evidence_is_bounded_by_coverage :
  0 < J -> 0 <= W -> shape imgs = (B, L, F) ->
  0 <= B -> 0 <= L -> 0 < Cb -> 0 < Cr -> 0 <= G -> 0 <= H ->
  (forall x h,
     shape (model x h).1.1 = (size0 x, size1 x, Cb) /\
     shape (model x h).1.2 = (size0 x, size1 x, Cr)) ->
  exists ws st,
    windows L W J = Some ws /\
    accumulate L Cb Cr W J G H model imgs = Some st /\
    (forall b p c, 0 <= c < Cb ->
       (0 <= entry (prediction_base_tensor (sums st)) b p c
        <= INR (coverage W p ws))%R) /\
    (forall b p c, 0 <= c < Cr ->
       (0 <= entry (prediction_rle_tensor (sums st)) b p c
        <= INR (coverage W p ws))%R).
Proof.
  intros. run_batch ws st lb lr. exists ws, st.
  split; [assumption|]. split; [assumption|].
  destruct (base_classes ws Hshapes) as [Hb Hr].
  split; intros b p c Hc; rewrite <- Hoff at 1;
    rewrite <- (EvidenceMore.covering_length W).
  - rewrite Vb. apply (EvidenceMore.contributions_bounds W output_base Cb); assumption.
  - rewrite Vr. apply (EvidenceMore.contributions_bounds W output_rle Cr); assumption.
Qed.

(** X5: the labels of a batch are one per instance and position, and each
    is a class id of its head. *)
Theorem labels_are_class_ids :
  0 < J -> 0 <= W -> shape imgs = (B, L, F) ->
  0 <= B -> 0 <= L -> 0 < Cb -> 0 < Cr -> 0 <= G -> 0 <= H ->
  (forall x h,
     shape (model x h).1.1 = (size0 x, size1 x, Cb) /\
     shape (model x h).1.2 = (size0 x, size1 x, Cr)) ->
  exists base_labels rle_labels,
    predict_labels L Cb Cr W J G H model imgs = Some (base_labels, rle_labels) /\
    rows base_labels = B /\ cols base_labels = L /\
    rows rle_labels = B /\ cols rle_labels = L /\
    forall b p, 0 <= label base_labels b p < Cb /\
                0 <= label rle_labels b p < Cr.
Proof.
  intros. run_batch ws st lb lr. exists lb, lr.
  repeat (split; [assumption|]). intros b p. rewrite Lb, Lr. split.
  - apply (ResolveFacts.argmax_first_maximal Cb); assumption.
  - apply (ResolveFacts.argmax_first_maximal Cr); assumption.
Qed.

(** X7: when the window is wider than the sequence the loop stops at its
    first test: the model is never invoked and every position of the batch
    gets class 0 from both heads. *)
Theorem wide_window_gives_only_class_zero :
  0 < J -> L < W -> shape imgs = (B, L, F) ->
  0 <= B -> 0 <= L -> 0 < Cb -> 0 < Cr -> 0 <= G -> 0 <= H ->
  (forall x h,
     shape (model x h).1.1 = (size0 x, size1 x, Cb) /\
     shape (model x h).1.2 = (size0 x, size1 x, Cr)) ->
  exists st base_labels rle_labels,
    windows L W J = Some [] /\
    accumulate_logged L Cb Cr W J G H model imgs = Some (st, []) /\
    predict_labels L Cb Cr W J G H model imgs = Some (base_labels, rle_labels) /\
    forall b p, label base_labels b p = 0 /\ label rle_labels b p = 0.
Proof.
  intros HJ HLW. intros. assert (0 <= W) by lia. run_batch ws st lb lr.
  assert (ws = []) as ->.
  { destruct ws as [|s ws]; [reflexivity|].
    apply Forall_cons in Hin. destruct Hin as [[Hs He] _]. lia. }
  exists st, lb, lr. split; [assumption|]. split; [exact Hlog|].
  split; [assumption|]. intros b p. rewrite Lb, Lr.
  split; apply ResolveFacts.argmax_all_zero; intros k;
    [rewrite Vb | rewrite Vr]; reflexivity.
Qed.


End Batch.

Ltac example_hyps :=
  first [lia | reflexivity | apply PredictFacts.example_model_shape].

Lemma evidence_is_bounded_by_coverage_witness :
  exists st,
    accumulate 6 2 3 4 2 1 1 Example.model Example.image6 = Some st /\
    (0 <= entry (prediction_base_tensor (sums st)) 0 2 1 <= 2)%R.
Proof.
  destruct (evidence_is_bounded_by_coverage 6 2 3 4 2 1 1 Example.model
              Example.image6 1 1) as (ws & st & Hws & Hacc & Hb & _);
    try example_hyps.
  vm_compute in Hws. injection Hws as <-.
  exists st. split; [exact Hacc|].
  pose proof (Hb 0 2 1 ltac:(lia)) as Hbound. vm_compute in Hbound.
  vm_compute. lra.
Defined.

Lemma labels_are_class_ids_witness :
  exists base_labels rle_labels,
    predict_labels 6 2 3 4 2 1 1 Example.model Example.image6
    = Some (base_labels, rle_labels) /\
    cols base_labels = 6 /\ 0 <= label base_labels 0 3 < 2.
Proof.
  destruct (labels_are_class_ids 6 2 3 4 2 1 1 Example.model Example.image6 1 1)
    as (lb & lr & E & _ & Kb & _ & _ & Hl); try example_hyps.
  exists lb, lr. split; [exact E|]. split; [exact Kb | apply Hl].
Defined.

Lemma wide_window_gives_only_class_zero_witness :
  exists base_labels rle_labels,
    predict_labels 6 2 3 8 2 1 1 Example.model Example.image6
    = Some (base_labels, rle_labels) /\
    label base_labels 0 3 = 0 /\ label rle_labels 0 3 = 0.
Proof.
  destruct (wide_window_gives_only_class_zero 6 2 3 8 2 1 1 Example.model
              Example.image6 1 1) as (st & lb & lr & _ & _ & E & Hl);
    try example_hyps.
  exists lb, lr. split; [exact E | apply Hl].
Defined.


End BatchMore.

(** ** More on the worker *)

Module WorkerMore.
Import Torch Predict More.

Lemma label_row_length (l : labels) (i : Z) :
  length (label_row l i) = Z.to_nat (cols l).
Proof. unfold label_row, Py.indices. rewrite !length_map, length_seq. reflexivity. Qed.

Section Write.

Variable b : batch.
Variables base_labels rle_labels : labels.

Abbreviation n := (Z.to_nat (size0 (images b))).

Abbreviation written := (More.written b base_labels rle_labels).

Lemma write_predictions_mapM :
  write_predictions b base_labels rle_labels = mapM written (seq 0 n).
Proof. reflexivity. Qed.

Lemma written_is_Some (i : nat) :
  is_Some (written i) <->
  (i < length (contig b) /\ i < length (contig_start b) /\
   i < length (contig_end b) /\ i < length (chunk_id b) /\
   i < length (position b) /\ i < length (filename b))%nat.
Proof.
  unfold More.written. rewrite <- !lookup_lt_is_Some. split.
  - destruct (contig b !! i); [|intros [? [=]]].
    destruct (contig_start b !! i); [|intros [? [=]]].
    destruct (contig_end b !! i); [|intros [? [=]]].
    destruct (chunk_id b !! i); [|intros [? [=]]].
    destruct (position b !! i); [|intros [? [=]]].
    destruct (filename b !! i); [|intros [? [=]]].
    intros _. repeat split; eauto.
  - intros ([? ->] & [? ->] & [? ->] & [? ->] & [? ->] & [? ->]). simpl. eauto.
Qed.

Lemma written_inv (i : nat) (p : prediction) :
  written i = Some p ->
  contig b !! i = Some (pred_contig p) /\
  contig_start b !! i = Some (pred_contig_start p) /\
  contig_end b !! i = Some (pred_contig_end p) /\
  chunk_id b !! i = Some (pred_chunk_id p) /\
  position b !! i = Some (pred_position p) /\
  filename b !! i = Some (pred_filename p) /\
  pred_base_labels p = label_row base_labels (Z.of_nat i) /\
  pred_rle_labels p = label_row rle_labels (Z.of_nat i).
Proof.
  unfold More.written.
  destruct (contig b !! i); [|discriminate].
  destruct (contig_start b !! i); [|discriminate].
  destruct (contig_end b !! i); [|discriminate].
  destruct (chunk_id b !! i); [|discriminate].
  destruct (position b !! i); [|discriminate].
  destruct (filename b !! i); [|discriminate].
  intros [= <-]. simpl. repeat split; reflexivity.
Qed.

Lemma write_predictions_length (preds : list prediction) :
  write_predictions b base_labels rle_labels = Some preds -> length preds = n.
Proof.
  rewrite write_predictions_mapM. intros Hp. apply mapM_Some_1 in Hp.
  rewrite <- (Forall2_length _ _ _ Hp), length_seq. reflexivity.
Qed.

End Write.

(** X9: the predictions of a batch are written when each of the six
    metadata sequences has an entry for every instance, and only then; there
    is one per instance, in order, with the metadata of the instance and its
    rows of the two label tensors. *)
Theorem write_predictions_one_per_instance
    (b : batch) (base_labels rle_labels : labels) :
  let n := Z.to_nat (size0 (images b)) in
  (is_Some (write_predictions b base_labels rle_labels) <->
   (n <= length (contig b) /\ n <= length (contig_start b) /\
    n <= length (contig_end b) /\ n <= length (chunk_id b) /\
    n <= length (position b) /\ n <= length (filename b))%nat) /\
  (forall preds,
     write_predictions b base_labels rle_labels = Some preds ->
     length preds = n /\
     forall i p, preds !! i = Some p ->
       contig b !! i = Some (pred_contig p) /\
       contig_start b !! i = Some (pred_contig_start p) /\
       contig_end b !! i = Some (pred_contig_end p) /\
       chunk_id b !! i = Some (pred_chunk_id p) /\
       position b !! i = Some (pred_position p) /\
       filename b !! i = Some (pred_filename p) /\
       pred_base_labels p = label_row base_labels (Z.of_nat i) /\
       pred_rle_labels p = label_row rle_labels (Z.of_nat i) /\
       length (pred_base_labels p) = Z.to_nat (cols base_labels) /\
       length (pred_rle_labels p) = Z.to_nat (cols rle_labels)).
Proof.
  intros n. rewrite write_predictions_mapM. fold n. split.
  - rewrite mapM_is_Some, Forall_forall. split.
    + intros Hall. destruct n as [|m] eqn:En; [repeat split; lia|].
      assert (is_Some (More.written b base_labels rle_labels m)) as Hm
        by (apply (Hall m), elem_of_seq; lia).
      apply written_is_Some in Hm. lia.
    + intros Hlen i Hi. apply elem_of_seq in Hi.
      apply written_is_Some. lia.
  - intros preds Hp. apply mapM_Some_1 in Hp. split.
    + rewrite <- (Forall2_length _ _ _ Hp), length_seq. reflexivity.
    + intros i p Hi.
      destruct (Forall2_lookup_r _ _ _ _ _ Hp Hi) as (j & Hj & E).
      apply lookup_seq in Hj. destruct Hj as [-> _]. simpl in E.
      destruct (written_inv _ _ _ _ _ E) as (? & ? & ? & ? & ? & ? & Eb & Er).
      rewrite Eb, Er, !label_row_length. repeat split; assumption.
Qed.

Lemma write_predictions_one_per_instance_witness :
  exists preds,
    write_predictions Example2.batch2 Example2.zero_labels Example2.zero_labels
    = Some preds /\ length preds = 2%nat.
Proof.
  destruct (write_predictions_one_per_instance Example2.batch2
              Example2.zero_labels Example2.zero_labels) as [Hsome Hcontent].
  destruct (proj2 Hsome) as [preds E]; [simpl; lia|].
  exists preds. split; [exact E | apply (Hcontent preds E)].
Defined.

End WorkerMore.

(** ** More on [predict], [setup] and [predict_gpu] *)

Module RunMore.
Import Torch Predict More.

Section Run.

Variables L Cb Cr W J G H : Z.
Variable model : tensor -> tensor -> tensor * tensor * tensor.
Variables GREEN PURPLE END : string.
Variable num_threads : Z.
Variable F : Type.
Variable DataLoader : F -> list (batch * (float * float)).

Abbreviation batch_body :=
  (batch_body L Cb Cr W J G H model GREEN END).
Abbreviation predict :=
  (predict L Cb Cr W J G H model GREEN PURPLE END num_threads F DataLoader).
Abbreviation setup :=
  (setup L Cb Cr W J G H model GREEN PURPLE END num_threads F DataLoader).
Abbreviation predict_gpu :=
  (predict_gpu L Cb Cr W J G H model GREEN PURPLE END num_threads F DataLoader).

Lemma report_lines (rank : nat) (now start_time : float) (total it : Z)
    (lines : list string) :
  Progress.report GREEN END rank now start_time total it = Some lines ->
  length lines = if Nat.eqb rank 0 then 1%nat else 0%nat.
Proof.
  unfold Progress.report. destruct (Nat.eqb rank 0).
  - destruct (Progress.fields _); [|discriminate]. intros [= <-]. reflexivity.
  - intros [= <-]. reflexivity.
Qed.

Lemma batch_body_step (rank : nat) (total : Z) (w0 w1 : worker) (b : batch)
    (t : float * float) :
  batch_body rank total w0 (b, t) = Some w1 ->
  batch_iterator w1 = batch_iterator w0 + 1 /\
  length (stderr w1)
  = (length (stderr w0) + if Nat.eqb rank 0 then 1 else 0)%nat /\
  length (store w1) = (length (store w0) + Z.to_nat (size0 (images b)))%nat.
Proof.
  unfold Predict.batch_body. destruct t as [start_time now].
  destruct (predict_labels L Cb Cr W J G H model (images b)) as [[lb lr]|];
    [|discriminate]. cbn [mbind option_bind].
  destruct (Progress.report _ _ _ _ _ _ _) as [lines|] eqn:Er; [|discriminate].
  cbn [mbind option_bind].
  destruct (write_predictions b lb lr) as [ps|] eqn:Ew; [|discriminate].
  cbn [mbind option_bind]. intros [= <-]. simpl.
  rewrite !length_app, (report_lines _ _ _ _ _ _ Er).
  rewrite (WorkerMore.write_predictions_length b lb lr ps Ew).
  auto.
Qed.

Lemma loader_counts (rank : nat) (total : Z)
    (items : list (batch * (float * float))) (w0 w : worker) :
  Py.for_each (batch_body rank total) items w0 = Some w ->
  batch_iterator w = batch_iterator w0 + Z.of_nat (length items) /\
  length (stderr w)
  = (length (stderr w0) + if Nat.eqb rank 0 then length items else 0)%nat /\
  length (store w) = (length (store w0) + instances items)%nat.
Proof.
  revert w0; induction items as [|[b t] items IH]; intros w0.
  - intros [= <-]. unfold instances. simpl. destruct (Nat.eqb rank 0); lia.
  - change (Py.for_each ?f ((b, t) :: items) w0)
      with (w1 ← f w0 (b, t); Py.for_each f items w1).
    destruct (Predict.batch_body _ _ _ _ _ _ _ _ _ _ _ _ w0 (b, t)) as [w1|] eqn:E1;
      [|discriminate].
    cbn [mbind option_bind]. intros Hrest.
    destruct (batch_body_step _ _ _ _ _ _ E1) as (Hi1 & He1 & Hs1).
    destruct (IH _ Hrest) as (Hi & He & Hs).
    rewrite Hi, He, Hs, Hi1, He1, Hs1. unfold instances. cbn [length map list_sum].
    destruct (Nat.eqb rank 0); simpl; lia.
Qed.

(** X10: a worker whose rank is not 0 writes nothing to the standard
    error stream; the worker of rank 0 writes two lines before the first
    batch and one line after every batch. *)
Theorem only_rank_0_reports
    (test_file : F) (output_filename : string) (rank : nat) (device_id : Z)
    (w : worker) :
  outcome F (predict test_file output_filename rank device_id) = Some w ->
  (rank <> 0%nat -> stderr w = []) /\
  (rank = 0%nat -> length (stderr w) = (2 + length (DataLoader test_file))%nat).
Proof.
  unfold Predict.predict. cbn [outcome]. intros Hrun.
  destruct (loader_counts _ _ _ _ _ Hrun) as (_ & He & _).
  unfold banner in He. split; intros Hr.
  - apply Nat.eqb_neq in Hr. rewrite Hr in He. simpl in He.
    destruct (stderr w); [reflexivity | simpl in He; lia].
  - subst rank. simpl in He. exact He.
Qed.

(** X11: after a run that ends without an exception the batch counter
    equals the number of batches of the loader, and the number of
    predictions written is the number of instances in those batches. *)
Theorem run_counts_batches_and_instances
    (test_file : F) (output_filename : string) (rank : nat) (device_id : Z)
    (w : worker) :
  outcome F (predict test_file output_filename rank device_id) = Some w ->
  batch_iterator w = Z.of_nat (length (DataLoader test_file)) /\
  length (store w) = instances (DataLoader test_file).
Proof.
  unfold Predict.predict. cbn [outcome]. intros Hrun.
  destruct (loader_counts _ _ _ _ _ Hrun) as (Hi & _ & Hs).
  simpl in Hi, Hs. split; [lia | exact Hs].
Qed.

(** X12: a worker whose rank has no entry in the list of shards or in the
    list of devices raises before [predict] is called, and a launch of more
    workers than there are shards or devices raises. *)
Theorem launch_needs_a_shard_and_a_device_per_worker
    (file_chunks : list F) (output_filepath : string) (total_callers : nat)
    (devices : list Z) :
  (forall rank,
     (length file_chunks <= rank \/ length devices <= rank)%nat ->
     setup rank total_callers output_filepath file_chunks devices = None) /\
  ((length file_chunks < total_callers \/ length devices < total_callers)%nat ->
   predict_gpu file_chunks output_filepath total_callers devices = None).
Proof.
  assert (Hsetup : forall rank,
     (length file_chunks <= rank \/ length devices <= rank)%nat ->
     setup rank total_callers output_filepath file_chunks devices = None).
  { intros rank Hlen. unfold Predict.setup.
    destruct (file_chunks !! rank) as [f|] eqn:Ef; [|reflexivity].
    destruct (devices !! rank) as [d|] eqn:Ed; [|reflexivity].
    apply lookup_lt_Some in Ef. apply lookup_lt_Some in Ed. lia. }
  split; [exact Hsetup|].
  intros Hfew.
  destruct (predict_gpu file_chunks output_filepath total_callers devices)
    as [runs|] eqn:E; [|reflexivity].
  assert (is_Some (predict_gpu file_chunks output_filepath total_callers devices))
    as Hsome by (rewrite E; eauto).
  unfold Predict.predict_gpu in Hsome. rewrite mapM_is_Some, Forall_forall in Hsome.
  destruct total_callers as [|m]; [lia|].
  assert (is_Some (setup m (S m) output_filepath file_chunks devices)) as [r Hm]
    by (apply (Hsome m), elem_of_seq; lia).
  rewrite Hsetup in Hm by lia. discriminate Hm.
Qed.

End Run.

(** A worker of rank 1 on the example loader. *)
Lemma only_rank_0_reports_witness :
  exists w,
    outcome nat (Predict.predict 6 2 3 4 2 1 1 Example.model EmptyString
                   EmptyString EmptyString 1 nat Example2.loader 0%nat "out" 1 0)
    = Some w /\ stderr w = [].
Proof.
  assert (exists w,
    outcome nat (Predict.predict 6 2 3 4 2 1 1 Example.model EmptyString
                   EmptyString EmptyString 1 nat Example2.loader 0%nat "out" 1 0)
    = Some w) as [w E] by (vm_compute; eexists; reflexivity).
  exists w. split; [exact E|].
  apply (only_rank_0_reports _ _ _ _ _ _ _ _ _ _ _ _ _ _ _ _ _ _ _ E). lia.
Defined.

(** The worker of rank 0 on the example loader: one batch of two
    instances. *)
Lemma run_counts_batches_and_instances_witness :
  exists w,
    outcome nat (Predict.predict 6 2 3 4 2 1 1 Example.model EmptyString
                   EmptyString EmptyString 1 nat Example2.loader 0%nat "out" 0 0)
    = Some w /\ batch_iterator w = 1 /\ length (store w) = 2%nat.
Proof.
  assert (exists w,
    outcome nat (Predict.predict 6 2 3 4 2 1 1 Example.model EmptyString
                   EmptyString EmptyString 1 nat Example2.loader 0%nat "out" 0 0)
    = Some w) as [w E] by (vm_compute; eexists; reflexivity).
  exists w. split; [exact E|].
  exact (run_counts_batches_and_instances _ _ _ _ _ _ _ _ _ _ _ _ _ _ _ _ _ _ _ E).
Defined.

(** Three workers for two shards. *)
Lemma launch_needs_a_shard_and_a_device_per_worker_witness :
  Predict.predict_gpu 6 2 3 4 2 1 1 Example.model EmptyString EmptyString
    EmptyString 1 nat Example2.loader [10; 11]%nat "out" 3 [0; 1; 2] = None.
Proof.
  apply (proj2 (launch_needs_a_shard_and_a_device_per_worker
           6 2 3 4 2 1 1 Example.model EmptyString EmptyString EmptyString 1 nat
           Example2.loader [10; 11]%nat "out" 3 [0; 1; 2])).
  left. simpl. lia.
Defined.

Lemma accumulate_zero_jump (L Cb Cr W G H : Z)
    (model : tensor -> tensor -> tensor * tensor * tensor) (imgs : tensor) :
  accumulate L Cb Cr W 0 G H model imgs = None.
Proof.
  unfold accumulate. destruct (batch_start Cb Cr G H imgs); reflexivity.
Qed.

(** X17: a jump of zero does not make the window loop run for ever: [range]
    raises in the first batch, no labels are resolved and nothing is
    written. *)
Theorem zero_jump_raises_in_the_first_batch
    (L Cb Cr W G H : Z) (model : tensor -> tensor -> tensor * tensor * tensor)
    (GREEN PURPLE END : string) (num_threads : Z) (F : Type)
    (DataLoader : F -> list (batch * (float * float)))
    (test_file : F) (output_filename : string) (rank : nat) (device_id : Z) :
  DataLoader test_file <> [] ->
  (forall imgs, predict_labels L Cb Cr W 0 G H model imgs = None) /\
  outcome F (Predict.predict L Cb Cr W 0 G H model GREEN PURPLE END num_threads
               F DataLoader test_file output_filename rank device_id) = None.
Proof.
  intros Hne.
  assert (Hl : forall imgs, predict_labels L Cb Cr W 0 G H model imgs = None).
  { intros imgs. unfold predict_labels. rewrite accumulate_zero_jump. reflexivity. }
  split; [exact Hl|].
  unfold Predict.predict. cbn [outcome].
  assert (Hb : forall total w item,
            Predict.batch_body L Cb Cr W 0 G H model GREEN END rank total w item
            = None).
  { intros total w [b [start_time now]]. unfold Predict.batch_body.
    rewrite Hl. reflexivity. }
  destruct (DataLoader test_file) as [|item items]; [congruence|].
  cbn [Py.for_each]. rewrite Hb. reflexivity.
Qed.

Lemma zero_jump_raises_in_the_first_batch_witness :
  outcome nat (Predict.predict 6 2 3 4 0 1 1 Example.model EmptyString
                 EmptyString EmptyString 1 nat Example2.loader 0%nat "out" 0 0)
  = None.
Proof.
  apply (zero_jump_raises_in_the_first_batch 6 2 3 4 1 1 Example.model
           EmptyString EmptyString EmptyString 1 nat Example2.loader 0%nat
           "out" 0%nat 0).
  discriminate.
Defined.

End RunMore.

(** ** More on the dataset *)

Module DataloaderMore.
Import Dataloader.

Lemma getitem_unfold (h5py_File : string -> option hdf5_file)
    (file_info : list string) (index : nat) :
  getitem h5py_File file_info index
  = path ← file_info !! index;
    f ← h5py_File path;
    Some (image f, map remap (label_base f), label_run_length f).
Proof.
  unfold getitem. destruct (file_info !! index) as [path|]; [|reflexivity].
  cbn [mbind option_bind]. destruct (h5py_File path) as [f|]; [|reflexivity].
  cbn [mbind option_bind].
  pose proof (DataloaderFacts.relabel_loop (label_base f) []) as E.
  simpl in E. rewrite E. reflexivity.
Qed.

Lemma remap_idempotent (c : Z) : remap (remap c) = remap c.
Proof.
  unfold remap.
  repeat match goal with
         | |- context [if ?a =? ?b then _ else _] =>
             destruct (Z.eqb_spec a b); try lia; try reflexivity
         end.
Qed.

(** X14: when the base labels of a file are codes of [A], [C], [G], [T],
    the gap or [N], the base labels of the item are class ids from 0 to
    4. *)
Theorem alphabet_becomes_class_ids
    (h5py_File : string -> option hdf5_file) (file_info : list string)
    (index : nat) (path : string) (f : hdf5_file) :
  file_info !! index = Some path -> h5py_File path = Some f ->
  Forall (fun c => c = 65 \/ c = 67 \/ c = 71 \/ c = 84 \/ c = 95 \/ c = 78)
         (label_base f) ->
  exists base,
    getitem h5py_File file_info index
    = Some (image f, base, label_run_length f) /\
    Forall (fun c => 0 <= c <= 4) base.
Proof.
  intros Hp Hf Hall. exists (map remap (label_base f)).
  rewrite getitem_unfold, Hp. cbn [mbind option_bind]. rewrite Hf.
  split; [reflexivity|].
  induction Hall as [|c l Hc _ IH]; simpl; constructor; [|exact IH].
  destruct Hc as [-> | [-> | [-> | [-> | [-> | ->]]]]]; vm_compute; split; discriminate.
Qed.

Lemma alphabet_becomes_class_ids_witness :
  exists base,
    getitem (fun _ => Some (Hdf5 [] [84; 78; 95; 65] [1; 1; 1; 2])) ["a.h5"%string] 0
    = Some ([], base, [1; 1; 1; 2]) /\
    Forall (fun c => 0 <= c <= 4) base.
Proof.
  apply (alphabet_becomes_class_ids
           (fun _ => Some (Hdf5 [] [84; 78; 95; 65] [1; 1; 1; 2]))
           ["a.h5"%string] 0%nat "a.h5"%string
           (Hdf5 [] [84; 78; 95; 65] [1; 1; 1; 2]) eq_refl eq_refl).
  simpl. repeat constructor; lia.
Defined.

(** X15: the relabelling loop changes nothing in base labels that it has
    already relabelled, so class ids 0 to 4 stored in a file pass through
    as they are. *)
Theorem relabelling_twice_changes_nothing (label_base : list Z) :
  Py.for_each relabel (seq 0 (length (map remap label_base)))
              (map remap label_base)
  = Some (map remap label_base) /\
  (Forall (fun c => 0 <= c <= 4) label_base ->
   Py.for_each relabel (seq 0 (length label_base)) label_base = Some label_base).
Proof.
  assert (Hloop : forall l, Py.for_each relabel (seq 0 (length l)) l
                            = Some (map remap l)).
  { intros l. pose proof (DataloaderFacts.relabel_loop l []) as E. exact E. }
  split.
  - rewrite Hloop, map_map. f_equal. apply map_ext. apply remap_idempotent.
  - intros Hids. rewrite Hloop. f_equal.
    induction Hids as [|c l Hc _ IH]; simpl; [reflexivity|].
    rewrite IH. f_equal. unfold remap.
    repeat match goal with
           | |- context [if ?a =? ?b then _ else _] =>
               destruct (Z.eqb_spec a b); [lia|]
           end.
    reflexivity.
Qed.

Lemma relabelling_twice_changes_nothing_witness :
  Py.for_each relabel (seq 0 4) [1; 0; 4; 2] = Some [1; 0; 4; 2].
Proof.
  apply (proj2 (relabelling_twice_changes_nothing [1; 0; 4; 2])).
  repeat constructor; lia.
Defined.

End DataloaderMore.

(** ** More on the progress report *)

Module ProgressMore.
Import Torch Predict More Progress.

Lemma for_each_snoc {S A : Type} (body : S -> A -> option S) (l : list A) (x : A)
    (st st' : S) :
  Py.for_each body (l ++ [x]) st = Some st' ->
  exists st1, Py.for_each body l st = Some st1 /\ body st1 x = Some st'.
Proof.
  revert st; induction l as [|y l IH]; intros st; simpl.
  - destruct (body st x) as [s1|] eqn:E; [|discriminate]. simpl.
    intros [= <-]. exists st. auto.
  - destruct (body st y) as [s1|]; [|discriminate]. simpl. apply IH.
Qed.

(** With no batch left the estimate is zero, whatever finite time the last
    batch took, and so are the three fields. *)
Lemma fields_nothing_left (elapsed : float) :
  is_finite elapsed = true ->
  fields (PrimFloat.mul elapsed (py_float 0)) = Some (TimeLeft 0 0 0).
Proof.
  unfold is_finite. intros Hfin.
  set (eta := PrimFloat.mul elapsed (py_float 0)).
  assert (Prim2SF (py_float 0) = S754_zero false) as H0 by (vm_compute; reflexivity).
  assert (exists m e, Prim2SF (py_float 3600) = S754_finite false m e) as (m1 & e1 & H1)
    by (vm_compute; eauto).
  assert (exists m e, Prim2SF (py_float 60) = S754_finite false m e) as (m2 & e2 & H2)
    by (vm_compute; eauto).
  assert (exists s, Prim2SF eta = S754_zero s) as (s & E1).
  { unfold eta. rewrite mul_spec, H0.
    destruct (Prim2SF elapsed) as [s0| | |s0 m e]; try discriminate;
      eexists; reflexivity. }
  assert (Prim2SF (PrimFloat.div eta (py_float 3600)) = S754_zero s) as E2.
  { rewrite div_spec, E1, H1. destruct s; reflexivity. }
  assert (Prim2SF (PrimFloat.sub eta (PrimFloat.div eta (py_float 3600)))
          = S754_zero false) as E3.
  { rewrite sub_spec, E1, E2. destruct s; reflexivity. }
  assert (Prim2SF (PrimFloat.div
                     (PrimFloat.sub eta (PrimFloat.div eta (py_float 3600)))
                     (py_float 60)) = S754_zero false) as E4.
  { rewrite div_spec, E3, H2. reflexivity. }
  unfold fields, py_int. rewrite E2. cbn [mbind option_bind].
  rewrite E4. cbn [mbind option_bind]. rewrite E3. reflexivity.
Qed.

Section Last.

Variables L Cb Cr W J G H : Z.
Variable model : tensor -> tensor -> tensor * tensor * tensor.
Variables GREEN PURPLE END : string.
Variable num_threads : Z.
Variable F : Type.
Variable DataLoader : F -> list (batch * (float * float)).

(** X18: after the last batch the worker of rank 0 reports that no time is
    left, whatever finite time that batch took. *)
Theorem last_report_says_no_time_is_left
    (test_file : F) (output_filename : string) (device_id : Z)
    (items : list (batch * (float * float))) (b : batch)
    (start_time now : float) (w : worker) :
  DataLoader test_file = items ++ [(b, (start_time, now))] ->
  is_finite (PrimFloat.sub now start_time) = true ->
  outcome F (Predict.predict L Cb Cr W J G H model GREEN PURPLE END num_threads
               F DataLoader test_file output_filename 0 device_id) = Some w ->
  let n := Z.of_nat (length items) + 1 in
  last (stderr w)
  = Some (GREEN ++ "INFO: "
          ++ ("BATCHES DONE: " ++ Py.str n ++ "/" ++ Py.str n ++ ". ")
          ++ "ESTIMATED TIME LEFT: 0 HOURS 0 MINS 0 SECS."
          ++ String "010" EmptyString ++ END)%string.
Proof.
  intros Hload Hfin Hrun n. unfold Predict.predict in Hrun. cbn [outcome] in Hrun.
  rewrite Hload in Hrun.
  destruct (for_each_snoc _ _ _ _ _ Hrun) as (w1 & H1 & Hlast).
  destruct (RunMore.loader_counts _ _ _ _ _ _ _ _ _ _ _ _ _ _ _ H1) as (Hit & _ & _).
  simpl in Hit.
  unfold Predict.batch_body in Hlast.
  destruct (predict_labels L Cb Cr W J G H model (images b)) as [[lb lr]|];
    [|discriminate]. cbn [mbind option_bind] in Hlast.
  rewrite length_app in Hlast. cbn [length] in Hlast.
  replace (Z.of_nat (length items + 1)) with n in Hlast by lia.
  replace (batch_iterator w1 + 1) with n in Hlast by lia.
  unfold report in Hlast. cbn [Nat.eqb] in Hlast. unfold estimate in Hlast.
  rewrite Z.sub_diag, (fields_nothing_left _ Hfin) in Hlast.
  cbn [mbind option_bind] in Hlast.
  destruct (write_predictions b lb lr) as [ps|]; [|discriminate].
  cbn [mbind option_bind] in Hlast. injection Hlast as <-.
  cbn [stderr]. rewrite last_snoc. reflexivity.
Qed.

End Last.

Lemma last_report_says_no_time_is_left_witness :
  exists w,
    outcome nat (Predict.predict 6 2 3 4 2 1 1 Example.model EmptyString
                   EmptyString EmptyString 1 nat Example2.loader 0%nat "out" 0 0)
    = Some w /\
    last (stderr w)
    = Some ("INFO: BATCHES DONE: 1/1. ESTIMATED TIME LEFT: 0 HOURS 0 MINS 0 SECS."
            ++ String "010" EmptyString)%string.
Proof.
  assert (exists w,
    outcome nat (Predict.predict 6 2 3 4 2 1 1 Example.model EmptyString
                   EmptyString EmptyString 1 nat Example2.loader 0%nat "out" 0 0)
    = Some w) as [w E] by (vm_compute; eexists; reflexivity).
  exists w. split; [exact E|].
  exact (last_report_says_no_time_is_left 6 2 3 4 2 1 1 Example.model
           EmptyString EmptyString EmptyString 1 nat Example2.loader 0%nat "out" 0
           [] Example2.batch2 1700000000%float 1700000001%float w
           eq_refl eq_refl E).
Defined.

End ProgressMore.

(** ** The report of [WrapHyperband.run] *)

Module HyperbandFacts.
Import HyperbandInterface.

Section Run.

Variable result : Type.
Variable K : Type.
Variable loss : result -> K.
Variable ltb : K -> K -> bool.

(** The comparison is a strict order in which any two losses compare, as
    [<] is on numbers. *)
Hypothesis ltb_asym : forall x y, ltb x y = true -> ltb y x = false.
Hypothesis ltb_trans : forall x y z,
  ltb y x = false -> ltb z y = false -> ltb z x = false.

(** [x] is not above [y]. *)
Abbreviation le x y := (ltb (loss y) (loss x) = false).
Abbreviation insert := (insert result K loss ltb).
Abbreviation sorted := (sorted result K loss ltb).
Abbreviation top5 := (top5 result K loss ltb).
Abbreviation printed := (printed result K loss ltb).

Lemma insert_perm (x : result) (l : list result) : Permutation (x :: l) (insert x l).
Proof.
  induction l as [|y l IH]; simpl; [reflexivity|].
  destruct (ltb (loss y) (loss x)); [|reflexivity].
  rewrite perm_swap. apply perm_skip, IH.
Qed.

Lemma sorted_perm (l : list result) : Permutation l (sorted l).
Proof.
  induction l as [|x l IH]; simpl; [reflexivity|].
  rewrite <- insert_perm. apply perm_skip, IH.
Qed.

Lemma insert_sorted (x : result) (l : list result) :
  StronglySorted (fun a b => le a b) l ->
  StronglySorted (fun a b => le a b) (insert x l).
Proof.
  induction 1 as [|y l Hs IH Hy]; simpl.
  - constructor; constructor.
  - destruct (ltb (loss y) (loss x)) eqn:E.
    + constructor; [exact IH|].
      rewrite <- (insert_perm x l). constructor; [|exact Hy].
      apply ltb_asym, E.
    + constructor; [constructor; assumption|].
      constructor; [exact E|].
      rewrite Forall_forall in Hy |- *. intros z Hz.
      apply (ltb_trans _ (loss y)); [exact E | apply Hy, Hz].
Qed.

Lemma sorted_sorted (l : list result) :
  StronglySorted (fun a b => le a b) (sorted l).
Proof.
  induction l as [|x l IH]; simpl; [constructor | apply insert_sorted, IH].
Qed.

Lemma sorted_split (l1 l2 : list result) :
  StronglySorted (fun a b => le a b) (l1 ++ l2) ->
  forall x y, x ∈ l1 -> y ∈ l2 -> le x y.
Proof.
  induction l1 as [|a l1 IH]; simpl; intros Hs x y Hx Hy.
  - apply elem_of_nil in Hx. contradiction.
  - apply StronglySorted_inv in Hs. destruct Hs as [Hs Ha].
    apply elem_of_cons in Hx. destruct Hx as [->|Hx].
    + rewrite Forall_forall in Ha. apply Ha, elem_of_app. auto.
    + apply (IH Hs); assumption.
Qed.

Lemma numbered_snd (f : nat -> result -> Z) (l : list result) :
  map snd (imap (fun i r => (f i r, r)) l) = l.
Proof.
  revert f; induction l as [|x l IH]; intros f; simpl; [reflexivity|].
  f_equal. exact (IH (fun i => f (S i))).
Qed.

(** X19: [run] prints at most five results, numbered from 1, in ascending
    order of loss; they are results of the search, and no result that is
    left out has a smaller loss than one that is printed. *)
Theorem run_prints_the_five_least_losses (results : list result) :
  length (top5 results) = Nat.min 5 (length results) /\
  map snd (printed results) = top5 results /\
  (forall i n r, printed results !! i = Some (n, r) -> n = Z.of_nat i + 1) /\
  StronglySorted (fun a b => le a b) (top5 results) /\
  exists rest,
    Permutation results (top5 results ++ rest) /\
    forall x y, x ∈ top5 results -> y ∈ rest -> le x y.
Proof.
  unfold HyperbandInterface.printed, HyperbandInterface.top5.
  split; [|split; [|split; [|split]]].
  - rewrite length_take, <- (Permutation_length (sorted_perm results)). reflexivity.
  - apply numbered_snd.
  - intros i n r Hi. apply list_lookup_imap_Some in Hi.
    destruct Hi as (x & _ & [= -> _]). reflexivity.
  - pose proof (sorted_sorted results) as Hs.
    rewrite <- (take_drop 5 (sorted results)) in Hs.
    apply (BatchFacts.StronglySorted_app_l _ _ _ Hs).
  - exists (drop 5 (sorted results)). split.
    + rewrite take_drop. apply sorted_perm.
    + apply sorted_split. rewrite take_drop. apply sorted_sorted.
Qed.

End Run.

(** Seven results whose losses are the integers 5, 3, 9, 1, 7, 3, 8. *)
Lemma run_prints_the_five_least_losses_witness :
  length (top5 Z Z (fun r => r) Z.ltb [5; 3; 9; 1; 7; 3; 8]) = 5%nat /\
  map snd (printed Z Z (fun r => r) Z.ltb [5; 3; 9; 1; 7; 3; 8])
  = top5 Z Z (fun r => r) Z.ltb [5; 3; 9; 1; 7; 3; 8].
Proof.
  destruct (run_prints_the_five_least_losses Z Z (fun r => r) Z.ltb)
    with (results := [5; 3; 9; 1; 7; 3; 8]) as (Hlen & Hsnd & _).
  - intros x y Hxy. apply Z.ltb_lt in Hxy. apply Z.ltb_ge. lia.
  - intros x y z Hyx Hzy. apply Z.ltb_ge in Hyx, Hzy. apply Z.ltb_ge. lia.
  - split; [exact Hlen | exact Hsnd].
Defined.

End HyperbandFacts.

